(** * FhirQueryConverter: the three MCP tool servers

    A shallow embedding of [mcp-servers/action_mcp_server.py],
    [mcp-servers/cql_mcp_server.py] and [mcp-servers/data_mcp_server.py],
    and the properties of their tool handlers.

    Conventions of the embedding.
    - A Python [str] is a [string]: the sequence of its characters, a non-ASCII
      character being held as its UTF-8 bytes.  [lower], [strip], [len] and
      slices are the ASCII ones, which is what Python computes on ASCII text.
    - A Python [dict] built by the code is an insertion-ordered association
      list ([pydict]); the [arguments] of a call is a [gmap] from parameter
      name to the string supplied (every parameter of every tool is declared
      with type string).
    - The environment variables read when a module is loaded are a record,
      [Action.Config] and [Data.Config]; what a call finds outside the
      process (Twilio, Databricks, PostgreSQL, the clock) is a record of
      oracles, [Action.World] and [Data.World].  A handler is a function of
      both, of its arguments and of the module state [SENT_MESSAGES], and
      returns the reply, the adapter functions it ran and the new state;
      [None] is an exception leaving the handler.  The [print] calls, which
      only write a log line to the console, are left out. *)

From Stdlib Require Import Ascii String DecimalString ZArith Lia.
From stdpp Require Import base option list strings gmap.

(** ** Python string primitives *)
Module Py.

(** [c.isspace()] on an ASCII character: tab, line feed, vertical tab, form
    feed, carriage return, the four separators 0x1c-0x1f and the space. *)
Definition isspace (c : ascii) : bool :=
  let n := nat_of_ascii c in
  ((9 <=? n) && (n <=? 13)) || ((28 <=? n) && (n <=? 32)).

(** [c.lower()] on an ASCII character. *)
Definition lower_char (c : ascii) : ascii :=
  let n := nat_of_ascii c in
  if (65 <=? n) && (n <=? 90) then ascii_of_nat (n + 32) else c.

(** [s.lower()] *)
Fixpoint lower (s : string) : string :=
  match s with
  | EmptyString => EmptyString
  | String c s' => String (lower_char c) (lower s')
  end.

(** [s.startswith(p)] *)
Fixpoint startswith (p s : string) : bool :=
  match p, s with
  | EmptyString, _ => true
  | String _ _, EmptyString => false
  | String a p', String b s' => if Ascii.eqb a b then startswith p' s' else false
  end.

(** [sub in s] *)
Fixpoint contains (sub s : string) : bool :=
  startswith sub s ||
  match s with
  | EmptyString => false
  | String _ s' => contains sub s'
  end.

(** [s.lstrip()] *)
Fixpoint lstrip (s : string) : string :=
  match s with
  | EmptyString => EmptyString
  | String c s' => if isspace c then lstrip s' else s
  end.

(** [s.rstrip()] *)
Fixpoint rstrip (s : string) : string :=
  match s with
  | EmptyString => EmptyString
  | String c s' =>
      match rstrip s' with
      | EmptyString => if isspace c then EmptyString else String c EmptyString
      | r => String c r
      end
  end.

(** [s.strip()] *)
Definition strip (s : string) : string := rstrip (lstrip s).

(** [len(s)] *)
Definition len (s : string) : nat := String.length s.

(** [s[:n]] *)
Fixpoint take (n : nat) (s : string) : string :=
  match n, s with
  | O, _ => EmptyString
  | S _, EmptyString => EmptyString
  | S n', String c s' => String c (take n' s')
  end.

(** [str(n)] for a non-negative [int] *)
Definition str_nat (n : nat) : string := NilEmpty.string_of_uint (Nat.to_uint n).

(** [str(z)] for an [int] *)
Definition str_int (z : Z) : string := NilEmpty.string_of_int (Z.to_int z).

(** [sep.join(l)] *)
Fixpoint join (sep : string) (l : list string) : string :=
  match l with
  | [] => EmptyString
  | [x] => x
  | x :: l' => x +:+ sep +:+ join sep l'
  end.

(** truthiness of a [str]: [bool(s)] *)
Definition truthy (s : string) : bool :=
  match s with EmptyString => false | _ => true end.

End Py.

(** ** Python dictionaries built by the code *)

(** An insertion-ordered dictionary with string keys. *)
Definition pydict (V : Type) : Type := list (string * V).

Module Dict.
Section Dict.
Context {V : Type}.

(** [d.get(k)]: [None] when the key is absent. *)
Fixpoint get (d : pydict V) (k : string) : option V :=
  match d with
  | [] => None
  | (k', v) :: d' => if String.eqb k k' then Some v else get d' k
  end.

(** [d[k]]: [None] stands for the [KeyError] raised when the key is absent. *)
Definition getitem (d : pydict V) (k : string) : option V := get d k.

(** [k in d] *)
Definition mem (k : string) (d : pydict V) : bool :=
  match get d k with Some _ => true | None => false end.

(** [d[k] = v]: overwrite in place, or append a new key. *)
Fixpoint set (d : pydict V) (k : string) (v : V) : pydict V :=
  match d with
  | [] => [(k, v)]
  | (k', v') :: d' =>
      if String.eqb k k' then (k', v) :: d' else (k', v') :: set d' k v
  end.

(** [dict(pairs)] *)
Definition of_pairs (l : list (string * V)) : pydict V :=
  fold_left (fun d kv => set d (fst kv) (snd kv)) l [].
End Dict.
End Dict.

(** [x in l] for a list of strings *)
Definition in_strs (x : string) (l : list string) : bool :=
  existsb (String.eqb x) l.

(** ** The types of the MCP library the servers use *)

(** One entry of [properties] in a JSON schema. *)
Record Property := {
  p_type : string;
  p_description : string;
  p_enum : option (list string);
  p_default : option string
}.

Record InputSchema := {
  s_type : string;
  properties : pydict Property;
  required : list string
}.

(** [mcp.types.Tool] *)
Record Tool := {
  name : string;
  description : string;
  inputSchema : InputSchema
}.

(** [mcp.types.TextContent] *)
Record TextContent := {
  type : string;
  text : string
}.

(** ** [action_mcp_server.py]: the messaging server *)
Module Action.

(** The Twilio credentials read from the environment when the module is
    loaded; an unset variable reads as the empty string. *)
Record Config := {
  TWILIO_ACCOUNT_SID : string;
  TWILIO_AUTH_TOKEN : string;
  TWILIO_FROM_NUMBER : string
}.

(** A reading of [datetime.now()], by the two renderings the code takes. *)
Record datetime := {
  strftime_YmdHMS : string;   (* [.strftime('%Y%m%d%H%M%S')] *)
  isoformat : string          (* [.isoformat()] *)
}.

(** What lies outside the process during one call. *)
Record World := {
  (** [Client(sid, token).messages.create(body=, from_=, to=)]: the [sid] of
      the message created, or the text [str(e)] of the exception raised
      (a missing [twilio] package included). *)
  twilio_create : string -> string -> string -> string -> string -> string + string;
  (** the n-th reading of the clock during the call *)
  now : nat -> datetime
}.

(** The adapter functions a handler can run, with their arguments. *)
Inductive Adapter :=
| SendSmsReal (phone_number message_body : string)
| SendSmsMock (phone_number message_body : string).

(** [SENT_MESSAGES]: the module-level list of the mock sends of the session. *)
Definition State : Type := list (pydict string).

(** [SENT_MESSAGES = []] *)
Definition SENT_MESSAGES_init : State := [].

(** What one call leaves behind: the value returned, the adapter functions
    that ran, and [SENT_MESSAGES] after the call. *)
Record Outcome := {
  reply : list TextContent;
  invoked : list Adapter;
  sent_messages : State
}.

Definition send_sms_real (cfg : Config) (w : World)
    (phone_number message_body : string) : pydict string :=
  match twilio_create w (TWILIO_ACCOUNT_SID cfg) (TWILIO_AUTH_TOKEN cfg)
          message_body (TWILIO_FROM_NUMBER cfg) phone_number with
  | inl sid =>
      [ ("status", "sent");
        ("message_sid", sid);
        ("to", phone_number);
        ("body", message_body);
        ("timestamp", isoformat (now w 0)) ]
  | inr e =>
      [ ("status", "error");
        ("error", e);
        ("to", phone_number) ]
  end.

(** Returns the result and [SENT_MESSAGES] with the result appended. *)
Definition send_sms_mock (w : World) (SENT_MESSAGES : State)
    (phone_number message_body : string) : pydict string * State :=
  let result :=
    [ ("status", "simulated");
      ("message_sid", "SM_MOCK_" +:+ strftime_YmdHMS (now w 0));
      ("to", phone_number);
      ("body", message_body);
      ("timestamp", isoformat (now w 1));
      ("note", "Demo mode - set TWILIO_* env vars to send real SMS") ] in
  (result, SENT_MESSAGES ++ [result]).

Definition list_tools : list Tool :=
  [ {| name := "send_sms_notification";
       description := "Send an SMS notification to a patient via Twilio.

Use this tool to:
- Send care gap reminders to patients
- Notify patients about overdue screenings
- Send appointment reminders
- Deliver health education messages

The message should be personalized and culturally appropriate.
Consider the patient's preferred language when crafting the message.

Returns confirmation of message delivery or error details.";
       inputSchema :=
         {| s_type := "object";
            properties :=
              [ ("phone_number",
                 {| p_type := "string";
                    p_description := "The patient's phone number in E.164 format (e.g., +15551234567)";
                    p_enum := None; p_default := None |});
                ("message_body",
                 {| p_type := "string";
                    p_description := "The SMS message content (max 160 chars recommended)";
                    p_enum := None; p_default := None |}) ];
            required := ["phone_number"; "message_body"] |} |};
    {| name := "get_sent_messages";
       description := "Get a list of SMS messages sent during this session.

Use this to review what messages have been sent and their status.
Useful for audit trails and confirming outreach completion.";
       inputSchema :=
         {| s_type := "object"; properties := []; required := [] |} |} ].

(** One round of the loop [for i, msg in enumerate(SENT_MESSAGES, 1)] of
    [get_sent_messages]; [None] is a [KeyError]. *)
Definition render_message (i : nat) (msg : pydict string) : option string :=
  to ← Dict.getitem msg "to";
  status ← Dict.getitem msg "status";
  timestamp ← Dict.getitem msg "timestamp";
  body ← Dict.getitem msg "body";
  Some ("### Message " +:+ Py.str_nat i +:+ "
- **To:** " +:+ to +:+ "
- **Status:** " +:+ status +:+ "
- **Time:** " +:+ timestamp +:+ "
- **Content:** " +:+ Py.take 50 body +:+ (if 50 <? Py.len body then "..." else "") +:+ "

").

Fixpoint render_messages (i : nat) (msgs : list (pydict string))
    (response : string) : option string :=
  match msgs with
  | [] => Some response
  | msg :: msgs' =>
      piece ← render_message i msg;
      render_messages (S i) msgs' (response +:+ piece)
  end.

Definition text_reply (t : string) : list TextContent :=
  [ {| type := "text"; text := t |} ].

(** [call_tool(name, arguments)]; [None] is an exception escaping the
    handler. *)
Definition call_tool (cfg : Config) (w : World) (name : string)
    (arguments : gmap string string) (SENT_MESSAGES : State) : option Outcome :=
  if String.eqb name "send_sms_notification" then
    let phone_number := default "" (arguments !! "phone_number") in
    let message_body := default "" (arguments !! "message_body") in
    if negb (Py.truthy phone_number) then
      Some {| reply := text_reply "## Error

**Error:** Phone number is required";
              invoked := []; sent_messages := SENT_MESSAGES |}
    else if negb (Py.truthy message_body) then
      Some {| reply := text_reply "## Error

**Error:** Message body is required";
              invoked := []; sent_messages := SENT_MESSAGES |}
    else
      let '(result, adapter, SENT_MESSAGES') :=
        if Py.truthy (TWILIO_ACCOUNT_SID cfg) && Py.truthy (TWILIO_AUTH_TOKEN cfg)
        then (send_sms_real cfg w phone_number message_body,
              SendSmsReal phone_number message_body, SENT_MESSAGES)
        else let '(r, s) := send_sms_mock w SENT_MESSAGES phone_number message_body in
             (r, SendSmsMock phone_number message_body, s) in
      status ← Dict.getitem result "status";
      if in_strs status ["sent"; "simulated"] then
        let mode := if String.eqb status "sent" then "Live" else "Demo" in
        to ← Dict.getitem result "to";
        message_sid ← Dict.getitem result "message_sid";
        timestamp ← Dict.getitem result "timestamp";
        body ← Dict.getitem result "body";
        let response := "## SMS Notification Sent ✅

**Mode:** " +:+ mode +:+ "
**To:** " +:+ to +:+ "
**Message SID:** " +:+ message_sid +:+ "
**Timestamp:** " +:+ timestamp +:+ "

### Message Content:
> " +:+ body +:+ "
" in
        let response :=
          match Dict.get result "note" with
          | Some note =>
              if Py.truthy note then response +:+ "
*" +:+ note +:+ "*" else response
          | None => response
          end in
        Some {| reply := text_reply response;
                invoked := [adapter]; sent_messages := SENT_MESSAGES' |}
      else
        to ← Dict.getitem result "to";
        Some {| reply := text_reply ("## SMS Failed ❌

**To:** " +:+ to +:+ "
**Error:** " +:+ default "Unknown error" (Dict.get result "error") +:+ "

Please check:
1. Phone number format (should be +1XXXXXXXXXX)
2. Twilio credentials are valid
3. Twilio account has sufficient balance
");
                invoked := [adapter]; sent_messages := SENT_MESSAGES' |}
  else if String.eqb name "get_sent_messages" then
    match SENT_MESSAGES with
    | [] =>
        Some {| reply := text_reply "## Sent Messages

No messages have been sent in this session.";
                invoked := []; sent_messages := SENT_MESSAGES |}
    | _ =>
        response ← render_messages 1 SENT_MESSAGES
          ("## Sent Messages (" +:+ Py.str_nat (length SENT_MESSAGES) +:+ " total)

");
        Some {| reply := text_reply response;
                invoked := []; sent_messages := SENT_MESSAGES |}
    end
  else
    Some {| reply := text_reply ("Unknown tool: " +:+ name);
            invoked := []; sent_messages := SENT_MESSAGES |}.

(** [main()], up to the point where it hands the streams to the MCP server
    loop: the lines it prints, one per [print]. *)
Definition main (cfg : Config) : list string :=
  ["🚀 Starting Action MCP Server (Twilio SMS)"] ++
  (if Py.truthy (TWILIO_ACCOUNT_SID cfg) && Py.truthy (TWILIO_AUTH_TOKEN cfg)
   then ["   Twilio: Connected (From: " +:+ TWILIO_FROM_NUMBER cfg +:+ ")"]
   else ["   Twilio: Demo mode (set TWILIO_* env vars for real SMS)";
         "   Required env vars:";
         "     - TWILIO_ACCOUNT_SID";
         "     - TWILIO_AUTH_TOKEN";
         "     - TWILIO_FROM_NUMBER"]).

End Action.

(** ** [cql_mcp_server.py]: the transform server *)
Module Cql.

(** [CQL_TO_SQL_TEMPLATES["diabetes_hba1c_gap"]] *)
Definition template_diabetes_hba1c_gap : string := "
-- Spark SQL: Patients with Diabetes who haven't had HbA1c in 6 months
-- Generated from CQL: DiabetesHbA1cGap measure logic

WITH diabetes_patients AS (
    SELECT DISTINCT
        p.id AS patient_id,
        p.gender,
        FLOOR(DATEDIFF(CURRENT_DATE(), p.birthDate) / 365.25) AS age,
        CONCAT(n.given[0], ' ', n.family) AS patient_name
    FROM patient p
    LATERAL VIEW EXPLODE(p.name) AS n
    WHERE EXISTS (
        SELECT 1 FROM condition c
        WHERE c.subject.reference = CONCAT('Patient/', p.id)
        AND c.code.coding[0].system = 'http://snomed.info/sct'
        AND c.code.coding[0].code IN ('44054006', '46635009', '73211009', '313436004')
        -- SNOMED codes for Type 1, Type 2, Diabetes mellitus, Diabetes unspecified
        AND c.clinicalStatus.coding[0].code = 'active'
    )
),

latest_hba1c AS (
    SELECT
        REPLACE(o.subject.reference, 'Patient/', '') AS patient_id,
        MAX(COALESCE(o.effectiveDateTime, o.issued)) AS last_hba1c_date,
        FIRST(o.valueQuantity.value) AS last_hba1c_value
    FROM observation o
    WHERE o.code.coding[0].code IN ('4548-4', '4549-2', '17856-6')
    -- LOINC codes for HbA1c
    AND o.status = 'final'
    GROUP BY REPLACE(o.subject.reference, 'Patient/', '')
),

risk_stratification AS (
    SELECT
        dp.patient_id,
        dp.patient_name,
        dp.age,
        dp.gender,
        lh.last_hba1c_date,
        lh.last_hba1c_value,
        DATEDIFF(CURRENT_DATE(), lh.last_hba1c_date) AS days_since_last_test,
        CASE
            WHEN lh.last_hba1c_date IS NULL THEN 'CRITICAL'
            WHEN DATEDIFF(CURRENT_DATE(), lh.last_hba1c_date) > 180 THEN 'HIGH'
            WHEN DATEDIFF(CURRENT_DATE(), lh.last_hba1c_date) > 90 THEN 'MODERATE'
            ELSE 'LOW'
        END AS risk_level,
        CASE
            WHEN lh.last_hba1c_value >= 9.0 THEN 'UNCONTROLLED'
            WHEN lh.last_hba1c_value >= 7.0 THEN 'ABOVE_TARGET'
            WHEN lh.last_hba1c_value >= 5.7 THEN 'AT_TARGET'
            ELSE 'NORMAL'
        END AS glycemic_control
    FROM diabetes_patients dp
    LEFT JOIN latest_hba1c lh ON dp.patient_id = lh.patient_id
)

SELECT
    patient_id,
    patient_name,
    age,
    gender,
    last_hba1c_date,
    last_hba1c_value,
    days_since_last_test,
    risk_level,
    glycemic_control,
    CASE
        WHEN risk_level = 'CRITICAL' THEN 100
        WHEN risk_level = 'HIGH' AND glycemic_control = 'UNCONTROLLED' THEN 95
        WHEN risk_level = 'HIGH' THEN 85
        WHEN risk_level = 'MODERATE' AND glycemic_control IN ('UNCONTROLLED', 'ABOVE_TARGET') THEN 70
        WHEN risk_level = 'MODERATE' THEN 50
        ELSE 20
    END AS outreach_priority_score
FROM risk_stratification
WHERE risk_level IN ('CRITICAL', 'HIGH', 'MODERATE')
ORDER BY outreach_priority_score DESC, days_since_last_test DESC
".

(** [CQL_TO_SQL_TEMPLATES["breast_cancer_screening"]] *)
Definition template_breast_cancer_screening : string := "
-- Spark SQL: CMS125 Breast Cancer Screening Measure
-- Generated from CQL: BreastCancerScreening v2.0.0

WITH initial_population AS (
    SELECT DISTINCT
        p.id AS patient_id,
        p.gender,
        FLOOR(DATEDIFF(DATE('2024-12-31'), p.birthDate) / 365.25) AS age_at_period_end
    FROM patient p
    WHERE p.gender = 'female'
    AND FLOOR(DATEDIFF(DATE('2024-12-31'), p.birthDate) / 365.25) BETWEEN 51 AND 74
),

qualifying_encounters AS (
    SELECT DISTINCT
        REPLACE(e.subject.reference, 'Patient/', '') AS patient_id
    FROM encounter e
    WHERE e.status = 'finished'
    AND e.period.start >= DATE_SUB(DATE('2024-12-31'), 730)
    AND e.type.coding[0].code IN ('99201', '99202', '99203', '99204', '99205',
                                   '99211', '99212', '99213', '99214', '99215')
),

denominator_exclusions AS (
    SELECT DISTINCT
        REPLACE(pr.subject.reference, 'Patient/', '') AS patient_id
    FROM procedure pr
    WHERE pr.code.coding[0].code IN ('27865001', '0HTV0ZZ', '0HTU0ZZ')
    -- Bilateral mastectomy codes
    AND pr.status = 'completed'
),

numerator AS (
    SELECT DISTINCT
        REPLACE(o.subject.reference, 'Patient/', '') AS patient_id,
        o.effectiveDateTime AS mammogram_date
    FROM observation o
    WHERE o.code.coding[0].code IN ('24606-6', '24605-8', '24610-8')
    -- LOINC mammography codes
    AND o.status = 'final'
    AND o.effectiveDateTime >= DATE_SUB(DATE('2024-12-31'), 821)
    -- 27 months lookback
)

SELECT
    ip.patient_id,
    ip.age_at_period_end AS age,
    CASE WHEN qe.patient_id IS NOT NULL THEN 1 ELSE 0 END AS in_denominator,
    CASE WHEN de.patient_id IS NOT NULL THEN 1 ELSE 0 END AS excluded,
    CASE WHEN n.patient_id IS NOT NULL THEN 1 ELSE 0 END AS in_numerator,
    n.mammogram_date AS last_mammogram,
    CASE
        WHEN de.patient_id IS NOT NULL THEN 'EXCLUDED'
        WHEN qe.patient_id IS NULL THEN 'NOT_IN_DENOMINATOR'
        WHEN n.patient_id IS NOT NULL THEN 'MET'
        ELSE 'GAP'
    END AS measure_status
FROM initial_population ip
LEFT JOIN qualifying_encounters qe ON ip.patient_id = qe.patient_id
LEFT JOIN denominator_exclusions de ON ip.patient_id = de.patient_id
LEFT JOIN numerator n ON ip.patient_id = n.patient_id
ORDER BY measure_status, ip.patient_id
".

Definition CQL_TO_SQL_TEMPLATES : pydict string :=
  [ ("diabetes_hba1c_gap", template_diabetes_hba1c_gap);
    ("breast_cancer_screening", template_breast_cancer_screening) ].

(** The three literal segments of the f-string of the [else] branch of
    [convert_cql_to_sql]. *)
Definition generic_head : string := "
-- Spark SQL: Generated from CQL expression
-- Target dialect: ".

Definition generic_middle : string := "
--
-- Original CQL:
-- ".

Definition generic_tail : string := "

WITH patient_cohort AS (
    SELECT
        p.id AS patient_id,
        CONCAT(n.given[0], ' ', n.family) AS patient_name,
        p.gender,
        p.birthDate,
        FLOOR(DATEDIFF(CURRENT_DATE(), p.birthDate) / 365.25) AS age
    FROM patient p
    LATERAL VIEW EXPLODE(p.name) AS n
    WHERE p.active = true
),

qualifying_conditions AS (
    SELECT
        REPLACE(c.subject.reference, 'Patient/', '') AS patient_id,
        c.code.coding[0].display AS condition_name,
        c.onsetDateTime AS onset_date
    FROM condition c
    WHERE c.clinicalStatus.coding[0].code = 'active'
),

measure_evaluation AS (
    SELECT
        pc.patient_id,
        pc.patient_name,
        pc.age,
        pc.gender,
        qc.condition_name,
        CASE
            WHEN qc.patient_id IS NOT NULL THEN 'IN_MEASURE'
            ELSE 'EXCLUDED'
        END AS measure_status
    FROM patient_cohort pc
    LEFT JOIN qualifying_conditions qc ON pc.patient_id = qc.patient_id
)

SELECT * FROM measure_evaluation
WHERE measure_status = 'IN_MEASURE'
ORDER BY patient_name
".

(** The f-string of the [else] branch of [convert_cql_to_sql]. *)
Definition generic_template (cql_logic target_dialect : string) : string :=
  generic_head +:+ target_dialect +:+ generic_middle +:+ Py.take 200 cql_logic +:+
  (if 200 <? Py.len cql_logic then "..." else "") +:+ generic_tail.

(** [convert_cql_to_sql(cql_logic, target_dialect)]; [None] is a [KeyError]. *)
Definition convert_cql_to_sql (cql_logic target_dialect : string) : option string :=
  let cql_lower := Py.lower cql_logic in
  sql ←
    (if Py.contains "diabetes" cql_lower || Py.contains "hba1c" cql_lower
        || Py.contains "a1c" cql_lower
     then Dict.getitem CQL_TO_SQL_TEMPLATES "diabetes_hba1c_gap"
     else if Py.contains "breast" cql_lower || Py.contains "mammog" cql_lower
             || Py.contains "cms125" cql_lower
     then Dict.getitem CQL_TO_SQL_TEMPLATES "breast_cancer_screening"
     else Some (generic_template cql_logic target_dialect));
  Some (Py.strip sql).

(** The dictionary [validate_cql] returns: its [valid] flag, its [errors]
    (key absent: [None]), its [warnings] (key absent: [None]; present with
    the value [None]: [Some None]) and its [message] (key absent: [None]). *)
Record Validation := {
  valid : bool;
  errors : option (list string);
  warnings : option (option (list string));
  message : option string
}.

Definition validate_cql (cql_expression : string) : Validation :=
  if negb (Py.truthy cql_expression) || negb (Py.truthy (Py.strip cql_expression)) then
    {| valid := false;
       errors := Some ["CQL expression cannot be empty"];
       warnings := None;
       message := None |}
  else
    let warnings0 : list string := [] in
    let warnings1 :=
      if negb (Py.contains "define" (Py.lower cql_expression))
      then warnings0 ++ ["Consider using 'define' statements for reusable expressions"]
      else warnings0 in
    let warnings2 :=
      if negb (Py.contains "library" (Py.lower cql_expression))
      then warnings1 ++ ["Missing library declaration - recommended for production CQL"]
      else warnings1 in
    {| valid := true;
       errors := None;
       warnings := Some (match warnings2 with [] => None | _ => Some warnings2 end);
       message := Some "CQL expression is syntactically valid" |}.

Definition list_tools : list Tool :=
  [ {| name := "convert_cql_to_sql";
       description := "Convert Clinical Quality Language (CQL) to executable SQL.

CQL is the healthcare industry standard for expressing clinical logic in a
human-readable format. This tool transpiles CQL to SQL for execution on
data platforms like Databricks, Snowflake, or BigQuery.

The generated SQL includes:
- Patient cohort identification
- Clinical condition filtering using SNOMED/ICD codes
- Observation/lab result analysis using LOINC codes
- Risk stratification logic
- Measure calculation (numerator/denominator)

Supported dialects: spark-sql, snowflake, bigquery, postgresql";
       inputSchema :=
         {| s_type := "object";
            properties :=
              [ ("cql_logic",
                 {| p_type := "string";
                    p_description := "The CQL expression or measure logic to convert";
                    p_enum := None; p_default := None |});
                ("target_dialect",
                 {| p_type := "string";
                    p_description := "Target SQL dialect (default: spark-sql)";
                    p_enum := Some ["spark-sql"; "snowflake"; "bigquery"; "postgresql"];
                    p_default := Some "spark-sql" |}) ];
            required := ["cql_logic"] |} |};
    {| name := "validate_cql";
       description := "Validate a CQL (Clinical Quality Language) expression for syntax errors.

Checks the CQL expression for:
- Proper library and using declarations
- Valid define statements
- Correct function syntax
- Type compatibility

Returns validation status and any warnings or errors.";
       inputSchema :=
         {| s_type := "object";
            properties :=
              [ ("cql_expression",
                 {| p_type := "string";
                    p_description := "The CQL expression to validate";
                    p_enum := None; p_default := None |}) ];
            required := ["cql_expression"] |} |} ].

(** The local functions a handler can run, with their arguments. *)
Inductive Adapter :=
| ConvertCqlToSql (cql_logic target_dialect : string)
| ValidateCql (cql_expression : string).

Record Outcome := {
  reply : list TextContent;
  invoked : list Adapter
}.

Definition text_reply (t : string) : list TextContent :=
  [ {| type := "text"; text := t |} ].

(** [for x in l: response += f"- {x}\n"] *)
Fixpoint bullets (l : list string) (response : string) : string :=
  match l with
  | [] => response
  | x :: l' => bullets l' (response +:+ "- " +:+ x +:+ "
")
  end.

(** [call_tool(name, arguments)]; [None] is an exception escaping the
    handler. *)
Definition call_tool (name : string) (arguments : gmap string string)
    : option Outcome :=
  if String.eqb name "convert_cql_to_sql" then
    let cql_logic := default "" (arguments !! "cql_logic") in
    let target_dialect := default "spark-sql" (arguments !! "target_dialect") in
    sql ← convert_cql_to_sql cql_logic target_dialect;
    Some {| reply := text_reply ("## CQL to SQL Conversion Complete

**Target Dialect:** " +:+ target_dialect +:+ "
**Conversion Status:** Success

### Generated SQL:

```sql
" +:+ sql +:+ "
```

### Conversion Notes:
- CQL clinical logic preserved in SQL CTEs (Common Table Expressions)
- FHIR resource paths mapped to SQL table/column references
- Terminology codes (SNOMED, LOINC, ICD) embedded for filtering
- Risk stratification logic included for patient prioritization

*This SQL is ready for execution on your " +:+ target_dialect +:+ " platform.*
");
            invoked := [ConvertCqlToSql cql_logic target_dialect] |}
  else if String.eqb name "validate_cql" then
    let cql_expression := default "" (arguments !! "cql_expression") in
    let result := validate_cql cql_expression in
    let status := if valid result then "Valid" else "Invalid" in
    let response := "## CQL Validation Result: " +:+ status +:+ "

" in
    let response :=
      match errors result with
      | Some (e :: es) => bullets (e :: es) (response +:+ "### Errors:
")
      | _ => response
      end in
    let response :=
      match warnings result with
      | Some (Some (x :: xs)) => bullets (x :: xs) (response +:+ "
### Warnings:
")
      | _ => response
      end in
    let response :=
      match message result with
      | Some m => if Py.truthy m then response +:+ "
" +:+ m else response
      | None => response
      end in
    Some {| reply := text_reply response;
            invoked := [ValidateCql cql_expression] |}
  else
    Some {| reply := text_reply ("Unknown tool: " +:+ name); invoked := [] |}.

End Cql.

(** ** [data_mcp_server.py]: the data server *)
Module Data.

(** A Python value held in a row or in a patient record.  A [float] is kept
    as its [repr]; [SOther] is any other object a database driver may hand
    back, kept as its [str()]. *)
Inductive scalar :=
| SNone
| SBool (b : bool)
| SInt (z : Z)
| SFloat (repr : string)
| SStr (s : string)
| SOther (str : string).

(** [str(v)] *)
Definition str (v : scalar) : string :=
  match v with
  | SNone => "None"
  | SBool true => "True"
  | SBool false => "False"
  | SInt z => Py.str_int z
  | SFloat r => r
  | SStr s => s
  | SOther s => s
  end.

(** The dictionary the query adapters return, a field per key; [None] is a
    key the dictionary does not have. *)
Record QueryResult := {
  status : string;
  source : option string;
  note : option string;
  row_count : option Z;
  columns : option (list string);
  data : option (list (pydict scalar));
  message : option string;
  error : option string
}.

(** The credentials read from the environment when the module is loaded; an
    unset variable reads as the empty string. *)
Record Config := {
  DATABRICKS_HOST : string;
  DATABRICKS_TOKEN : string;
  DATABRICKS_WAREHOUSE : string;
  DATABRICKS_HTTP_PATH : string;
  FIREMETRICS_API_KEY : string;
  FIREMETRICS_DB_HOST : string
}.

(** What lies outside the process during one call. *)
Record World := {
  (** [databricks_sql.connect(server_hostname=, http_path=, access_token=)],
      [cursor.execute(sql_query)], then the column names of
      [cursor.description] and [cursor.fetchall()]; or the text [str(e)] of
      the exception raised on the way. *)
  databricks_execute :
    string -> string -> string -> string ->
    (list string * list (list scalar)) + string;
  (** [os.environ.get("FIREMETRICS_DB_USER", "")] and
      [os.environ.get("FIREMETRICS_DB_PASSWORD", "")], read at each lookup *)
  FIREMETRICS_DB_USER : string;
  FIREMETRICS_DB_PASSWORD : string;
  (** [psycopg2.connect(host=, database="firemetrics", user=, password=)],
      the patient query with its parameter, then [cursor.fetchone()]: the
      four columns of the row or no row; or the text of the exception. *)
  firemetrics_fetchone :
    string -> string -> string -> string ->
    option (scalar * scalar * scalar * scalar) + string
}.

Definition MOCK_PATIENTS : list (pydict scalar) :=
  [ [ ("PatientID", SStr "patient-001");
      ("patient_name", SStr "Maria Garcia");
      ("RiskScore", SInt 95);
      ("GapStatus", SStr "CRITICAL");
      ("last_hba1c_date", SNone);
      ("glycemic_control", SStr "UNKNOWN");
      ("days_overdue", SInt 365);
      ("phone_number", SStr "+19176649186");
      ("preferred_name", SStr "Maria");
      ("preferred_language", SStr "Spanish");
      ("best_contact_time", SStr "Evening") ];
    [ ("PatientID", SStr "patient-002");
      ("patient_name", SStr "James Wilson");
      ("RiskScore", SInt 88);
      ("GapStatus", SStr "HIGH");
      ("last_hba1c_date", SStr "2024-03-15");
      ("last_hba1c_value", SFloat "9.2");
      ("glycemic_control", SStr "UNCONTROLLED");
      ("days_overdue", SInt 260);
      ("phone_number", SStr "+15559876543");
      ("preferred_name", SStr "Jim");
      ("preferred_language", SStr "English");
      ("best_contact_time", SStr "Morning") ];
    [ ("PatientID", SStr "patient-003");
      ("patient_name", SStr "Sarah Johnson");
      ("RiskScore", SInt 72);
      ("GapStatus", SStr "MODERATE");
      ("last_hba1c_date", SStr "2024-06-20");
      ("last_hba1c_value", SFloat "7.8");
      ("glycemic_control", SStr "ABOVE_TARGET");
      ("days_overdue", SInt 163);
      ("phone_number", SStr "+15551112222");
      ("preferred_name", SStr "Sarah");
      ("preferred_language", SStr "English");
      ("best_contact_time", SStr "Afternoon") ];
    [ ("PatientID", SStr "patient-004");
      ("patient_name", SStr "Robert Chen");
      ("RiskScore", SInt 65);
      ("GapStatus", SStr "MODERATE");
      ("last_hba1c_date", SStr "2024-07-10");
      ("last_hba1c_value", SFloat "7.4");
      ("glycemic_control", SStr "ABOVE_TARGET");
      ("days_overdue", SInt 143);
      ("phone_number", SStr "+15553334444");
      ("preferred_name", SStr "Bob");
      ("preferred_language", SStr "English");
      ("best_contact_time", SStr "Morning") ];
    [ ("PatientID", SStr "patient-005");
      ("patient_name", SStr "Linda Martinez");
      ("RiskScore", SInt 55);
      ("GapStatus", SStr "MODERATE");
      ("last_hba1c_date", SStr "2024-08-01");
      ("last_hba1c_value", SFloat "7.1");
      ("glycemic_control", SStr "ABOVE_TARGET");
      ("days_overdue", SInt 121);
      ("phone_number", SStr "+15555556666");
      ("preferred_name", SStr "Linda");
      ("preferred_language", SStr "Spanish");
      ("best_contact_time", SStr "Evening") ] ].

(** [{p["PatientID"]: p for p in MOCK_PATIENTS}]; a key of a [dict] is any
    hashable value, here the [PatientID] of each record; [None] is a
    [KeyError]. *)
Fixpoint index_by_id (ps : list (pydict scalar)) (acc : list (scalar * pydict scalar))
    : option (list (scalar * pydict scalar)) :=
  match ps with
  | [] => Some acc
  | p :: ps' =>
      k ← Dict.getitem p "PatientID";
      index_by_id ps' (acc ++ [(k, p)])
  end.

Definition PATIENT_DETAILS : option (list (scalar * pydict scalar)) :=
  index_by_id MOCK_PATIENTS [].

(** [PATIENT_DETAILS.get(patient_id)] for a [str] key: the last record filed
    under that key. *)
Fixpoint details_get (d : list (scalar * pydict scalar)) (patient_id : string)
    : option (pydict scalar) :=
  match d with
  | [] => None
  | (k, p) :: d' =>
      match details_get d' patient_id with
      | Some q => Some q
      | None =>
          match k with
          | SStr s => if String.eqb s patient_id then Some p else None
          | _ => None
          end
      end
  end.

Definition execute_databricks_sql_real (cfg : Config) (w : World)
    (sql_query : string) : QueryResult :=
  match databricks_execute w (DATABRICKS_HOST cfg) (DATABRICKS_HTTP_PATH cfg)
          (DATABRICKS_TOKEN cfg) sql_query with
  | inl (cols, rows) =>
      {| status := "success";
         source := None;
         note := None;
         row_count := Some (Z.of_nat (length rows));
         columns := Some cols;
         data := Some (map (fun row => Dict.of_pairs (zip cols row)) rows);
         message := None;
         error := None |}
  | inr e =>
      {| status := "error";
         source := None;
         note := None;
         row_count := None;
         columns := None;
         data := None;
         message := None;
         error := Some e |}
  end.

(** One element of the list comprehension of [execute_databricks_sql_mock]. *)
Definition mock_row (p : pydict scalar) : option (pydict scalar) :=
  v1 ← Dict.getitem p "PatientID";
  v2 ← Dict.getitem p "patient_name";
  v3 ← Dict.getitem p "RiskScore";
  v4 ← Dict.getitem p "GapStatus";
  v5 ← Dict.getitem p "last_hba1c_date";
  v6 ← Dict.getitem p "days_overdue";
  v7 ← Dict.getitem p "glycemic_control";
  Some [ ("PatientID", v1);
         ("patient_name", v2);
         ("RiskScore", v3);
         ("GapStatus", v4);
         ("last_hba1c_date", v5);
         ("days_overdue", v6);
         ("glycemic_control", v7) ].

(** [None] is a [KeyError]. *)
Definition execute_databricks_sql_mock (sql_query : string)
    : option QueryResult :=
  let sql_lower := Py.lower sql_query in
  if Py.contains "patient" sql_lower || Py.contains "risk" sql_lower
     || Py.contains "gap" sql_lower
  then
    rows ← mapM mock_row MOCK_PATIENTS;
    Some {| status := "success";
            source := Some "mock_data";
            note := Some "Using mock data - set DATABRICKS_* env vars for real connection";
            row_count := Some (Z.of_nat (length MOCK_PATIENTS));
            columns := Some ["PatientID"; "patient_name"; "RiskScore"; "GapStatus";
                             "last_hba1c_date"; "days_overdue"; "glycemic_control"];
            data := Some rows;
            message := None;
            error := None |}
  else
    Some {| status := "success";
            source := Some "mock_data";
            note := None;
            row_count := Some 0%Z;
            columns := Some [];
            data := Some [];
            message := Some "Query executed (mock mode - no matching data)";
            error := None |}.

(** [None] inside is the Python [None] (no row). *)
Definition lookup_patient_details_real (cfg : Config) (w : World)
    (patient_id : string) : option (pydict scalar) :=
  match firemetrics_fetchone w (FIREMETRICS_DB_HOST cfg)
          (FIREMETRICS_DB_USER w) (FIREMETRICS_DB_PASSWORD w) patient_id with
  | inl (Some (r0, r1, r2, r3)) =>
      Some [ ("patient_id", r0);
             ("preferred_name", r1);
             ("phone_number", r2);
             ("preferred_language", r3) ]
  | inl None => None
  | inr e => Some [ ("error", SStr e) ]
  end.

(** The outer [option] is a [KeyError]; the inner one the Python [None]. *)
Definition lookup_patient_details_mock (patient_id : string)
    : option (option (pydict scalar)) :=
  details ← PATIENT_DETAILS;
  match details_get details patient_id with
  | Some ((_ :: _) as patient) =>
      v1 ← Dict.getitem patient "PatientID";
      v2 ← Dict.getitem patient "preferred_name";
      v3 ← Dict.getitem patient "phone_number";
      v4 ← Dict.getitem patient "preferred_language";
      v5 ← Dict.getitem patient "best_contact_time";
      Some (Some [ ("patient_id", v1);
                   ("preferred_name", v2);
                   ("phone_number", v3);
                   ("preferred_language", v4);
                   ("best_contact_time", v5);
                   ("source", SStr "mock_data") ])
  | _ => Some None
  end.

Definition list_tools : list Tool :=
  [ {| name := "execute_databricks_sql";
       description := "Execute a SQL query on Databricks SQL Warehouse.

Use this for analytics queries on FHIR data:
- Quality measure calculations (CMS measures)
- Risk stratification queries
- Population health analytics
- Care gap identification

The Databricks warehouse contains flattened FHIR data in tables like:
- patient, encounter, observation, condition, procedure
- Pre-computed measure views (e.g., cms125_measure_report)

Returns query results with columns and data rows.";
       inputSchema :=
         {| s_type := "object";
            properties :=
              [ ("sql_query",
                 {| p_type := "string";
                    p_description := "The SQL query to execute on Databricks";
                    p_enum := None; p_default := None |}) ];
            required := ["sql_query"] |} |};
    {| name := "lookup_patient_details";
       description := "Look up patient contact information from Firemetrics.

Firemetrics provides fast PostgreSQL-based access to FHIR patient data.
Use this to retrieve:
- Patient's preferred name
- Phone number for outreach
- Preferred language for communication
- Best time to contact

This is typically used after identifying patients from a Databricks
analytics query, to get their contact details for care management.";
       inputSchema :=
         {| s_type := "object";
            properties :=
              [ ("patient_id",
                 {| p_type := "string";
                    p_description := "The FHIR Patient resource ID";
                    p_enum := None; p_default := None |}) ];
            required := ["patient_id"] |} |} ].

(** The adapter functions a handler can run, with their arguments. *)
Inductive Adapter :=
| ExecuteDatabricksSqlReal (sql_query : string)
| ExecuteDatabricksSqlMock (sql_query : string)
| LookupPatientDetailsReal (patient_id : string)
| LookupPatientDetailsMock (patient_id : string).

Record Outcome := {
  reply : list TextContent;
  invoked : list Adapter
}.

Definition text_reply (t : string) : list TextContent :=
  [ {| type := "text"; text := t |} ].

(** One round of [for row in result["data"][:10]] *)
Definition render_row (cols : list string) (row : pydict scalar) : string :=
  let values := map (fun col => str (default (SStr "") (Dict.get row col))) cols in
  "| " +:+ Py.join " | " values +:+ " |
".

Fixpoint render_rows (cols : list string) (rows : list (pydict scalar))
    (response : string) : string :=
  match rows with
  | [] => response
  | row :: rows' => render_rows cols rows' (response +:+ render_row cols row)
  end.

(** The formatting of a query result whose [status] is [success]; [None] is
    a [KeyError]. *)
Definition render_success (result : QueryResult) : option string :=
  n ← row_count result;
  let response := "## Databricks Query Results

**Status:** Success
**Rows Returned:** " +:+ Py.str_int n +:+ "
" in
  let response :=
    if bool_decide (source result = Some "mock_data")
    then response +:+ "**Mode:** Demo (mock data)
"
    else response in
  rows ← data result;
  match rows with
  | [] => Some response
  | _ :: _ =>
      cols ← columns result;
      let response := response +:+ "
### Results:

" in
      let response := response +:+ "| " +:+ Py.join " | " cols +:+ " |
" in
      let response :=
        response +:+ "| " +:+ Py.join " | " (replicate (length cols) "---") +:+ " |
" in
      let response := render_rows cols (take 10 rows) response in
      let response :=
        if (10 <? n)%Z
        then response +:+ "
*...and " +:+ Py.str_int (n - 10) +:+ " more rows*
"
        else response in
      Some response
  end.

(** [call_tool(name, arguments)]; [None] is an exception escaping the
    handler. *)
Definition call_tool (cfg : Config) (w : World) (name : string)
    (arguments : gmap string string) : option Outcome :=
  if String.eqb name "execute_databricks_sql" then
    let sql_query := default "" (arguments !! "sql_query") in
    '(result, adapter) ←
      (if Py.truthy (DATABRICKS_HOST cfg) && Py.truthy (DATABRICKS_TOKEN cfg)
       then Some (execute_databricks_sql_real cfg w sql_query,
                  ExecuteDatabricksSqlReal sql_query)
       else r ← execute_databricks_sql_mock sql_query;
            Some (r, ExecuteDatabricksSqlMock sql_query));
    if String.eqb (status result) "success" then
      response ← render_success result;
      Some {| reply := text_reply response; invoked := [adapter] |}
    else
      Some {| reply := text_reply ("## Query Error

**Error:** " +:+ default "Unknown error" (error result));
              invoked := [adapter] |}
  else if String.eqb name "lookup_patient_details" then
    let patient_id := default "" (arguments !! "patient_id") in
    '(result, adapter) ←
      (if Py.truthy (FIREMETRICS_DB_HOST cfg)
       then Some (lookup_patient_details_real cfg w patient_id,
                  LookupPatientDetailsReal patient_id)
       else r ← lookup_patient_details_mock patient_id;
            Some (r, LookupPatientDetailsMock patient_id));
    match result with
    | Some ((_ :: _) as result) =>
        if Dict.mem "error" result then
          e ← Dict.getitem result "error";
          Some {| reply := text_reply ("## Lookup Error

**Error:** " +:+ str e);
                  invoked := [adapter] |}
        else
          let response := "## Patient Details (Firemetrics)

**Patient ID:** " +:+ str (default (SStr patient_id) (Dict.get result "patient_id")) +:+ "
**Preferred Name:** " +:+ str (default (SStr "N/A") (Dict.get result "preferred_name")) +:+ "
**Phone Number:** " +:+ str (default (SStr "N/A") (Dict.get result "phone_number")) +:+ "
**Preferred Language:** " +:+ str (default (SStr "English") (Dict.get result "preferred_language")) +:+ "
**Best Contact Time:** " +:+ str (default (SStr "Any time") (Dict.get result "best_contact_time")) +:+ "
" in
          let response :=
            match Dict.get result "source" with
            | Some (SStr src) =>
                if String.eqb src "mock_data" then response +:+ "
*Using demo data - set FIREMETRICS_* env vars for real connection*"
                else response
            | _ => response
            end in
          Some {| reply := text_reply response; invoked := [adapter] |}
    | _ =>
        Some {| reply := text_reply ("## Patient Not Found

No patient found with ID: " +:+ patient_id);
                invoked := [adapter] |}
    end
  else
    Some {| reply := text_reply ("Unknown tool: " +:+ name); invoked := [] |}.

(** [main()], up to the point where it hands the streams to the MCP server
    loop: the lines it prints, one per [print]. *)
Definition main (cfg : Config) : list string :=
  ["🚀 Starting Data MCP Server (Databricks + Firemetrics)"] ++
  (if Py.truthy (DATABRICKS_HOST cfg)
   then ["   Databricks: Connected to " +:+ DATABRICKS_HOST cfg]
   else ["   Databricks: Using mock data (set DATABRICKS_* env vars for real connection)"]) ++
  (if Py.truthy (FIREMETRICS_DB_HOST cfg)
   then ["   Firemetrics: Connected to " +:+ FIREMETRICS_DB_HOST cfg]
   else ["   Firemetrics: Using mock data (set FIREMETRICS_* env vars for real connection)"]).

End Data.

(** ** Notions used in the statements *)



(** The text of a reply made of one text item. *)
Definition reply_text (r : list TextContent) : option string :=
  match r with
  | [ {| type := _; text := t |} ] => Some t
  | _ => None
  end.

(** The names a registry lists. *)
Definition tool_names (tools : list Tool) : list string := map name tools.



(** The two replies by which [send_sms_notification] refuses its arguments. *)
Definition is_validation_error (r : list TextContent) : Prop :=
  r = Action.text_reply "## Error

**Error:** Phone number is required" \/
  r = Action.text_reply "## Error

**Error:** Message body is required".

(** A process lifetime of the messaging server: calls served one after the
    other, each in the world of its moment, [SENT_MESSAGES] passing from one
    to the next; [None] when a handler raised. *)
Fixpoint run (cfg : Action.Config)
    (calls : list (Action.World * string * gmap string string))
    (SENT_MESSAGES : Action.State) : option Action.State :=
  match calls with
  | [] => Some SENT_MESSAGES
  | (w, name, arguments) :: calls' =>
      o ← Action.call_tool cfg w name arguments SENT_MESSAGES;
      run cfg calls' (Action.sent_messages o)
  end.


(** A record with the four keys [get_sent_messages] reads. *)
Definition readable (msg : pydict string) : Prop :=
  is_Some (Dict.get msg "to") /\ is_Some (Dict.get msg "status") /\
  is_Some (Dict.get msg "timestamp") /\ is_Some (Dict.get msg "body").

(** Concrete surroundings for the examples: no Twilio credentials, a clock
    stopped at noon, and a Twilio that refuses every send. *)
Definition demo_config : Action.Config :=
  {| Action.TWILIO_ACCOUNT_SID := "";
     Action.TWILIO_AUTH_TOKEN := "";
     Action.TWILIO_FROM_NUMBER := "" |}.

Definition noon : Action.datetime :=
  {| Action.strftime_YmdHMS := "20250101120000";
     Action.isoformat := "2025-01-01T12:00:00.000000" |}.

Definition quiet_world : Action.World :=
  {| Action.twilio_create := fun _ _ _ _ _ => inr "Unable to create record";
     Action.now := fun _ => noon |}.

(** Account SID and auth token set, the from-number left out. *)
Definition config_without_from_number : Action.Config :=
  {| Action.TWILIO_ACCOUNT_SID := "AC0123";
     Action.TWILIO_AUTH_TOKEN := "secret";
     Action.TWILIO_FROM_NUMBER := "" |}.

Definition reminder_arguments : gmap string string :=
  <["phone_number" := "+15550000000"]> (<["message_body" := "Reminder"]> ∅).

(** [SENT_MESSAGES] after one mock send of the reminder at noon. *)
Definition one_reminder : Action.State :=
  [ [ ("status", "simulated");
      ("message_sid", "SM_MOCK_20250101120000");
      ("to", "+15550000000");
      ("body", "Reminder");
      ("timestamp", "2025-01-01T12:00:00.000000");
      ("note", "Demo mode - set TWILIO_* env vars to send real SMS") ] ].

(** The data server started without credentials, and a world in which no
    connection can be made. *)
Definition data_demo_config : Data.Config :=
  {| Data.DATABRICKS_HOST := "";
     Data.DATABRICKS_TOKEN := "";
     Data.DATABRICKS_WAREHOUSE := "";
     Data.DATABRICKS_HTTP_PATH := "";
     Data.FIREMETRICS_API_KEY := "";
     Data.FIREMETRICS_DB_HOST := "" |}.

Definition data_quiet_world : Data.World :=
  {| Data.databricks_execute := fun _ _ _ _ => inr "connection refused";
     Data.FIREMETRICS_DB_USER := "";
     Data.FIREMETRICS_DB_PASSWORD := "";
     Data.firemetrics_fetchone := fun _ _ _ _ => inr "connection refused" |}.



(** The data server with every Databricks and Firemetrics value set. *)
Definition data_live_config : Data.Config :=
  {| Data.DATABRICKS_HOST := "dbc.example.net";
     Data.DATABRICKS_TOKEN := "dapi0123";
     Data.DATABRICKS_WAREHOUSE := "wh1";
     Data.DATABRICKS_HTTP_PATH := "/sql/1.0/warehouses/wh1";
     Data.FIREMETRICS_API_KEY := "fm0123";
     Data.FIREMETRICS_DB_HOST := "db.example.net" |}.

(** ** Notions used in the further properties *)

(** The report of a send that went through, live or simulated, before the
    note of the simulated send is added. *)
Definition sms_sent_report (mode to message_sid timestamp body : string) : string :=
  "## SMS Notification Sent ✅

**Mode:** " +:+ mode +:+ "
**To:** " +:+ to +:+ "
**Message SID:** " +:+ message_sid +:+ "
**Timestamp:** " +:+ timestamp +:+ "

### Message Content:
> " +:+ body +:+ "
".

(** The report of a send that Twilio refused. *)
Definition sms_failed_report (to error : string) : string :=
  "## SMS Failed ❌

**To:** " +:+ to +:+ "
**Error:** " +:+ error +:+ "

Please check:
1. Phone number format (should be +1XXXXXXXXXX)
2. Twilio credentials are valid
3. Twilio account has sufficient balance
".

(** The record a mock send files in [SENT_MESSAGES]. *)
Definition mock_record (w : Action.World) (phone_number message_body : string)
    : pydict string :=
  [ ("status", "simulated");
    ("message_sid", "SM_MOCK_" +:+ Action.strftime_YmdHMS (Action.now w 0));
    ("to", phone_number);
    ("body", message_body);
    ("timestamp", Action.isoformat (Action.now w 1));
    ("note", "Demo mode - set TWILIO_* env vars to send real SMS") ].

(** Twilio credentials as [call_tool] tests them. *)
Definition twilio_live (cfg : Action.Config) : bool :=
  Py.truthy (Action.TWILIO_ACCOUNT_SID cfg) && Py.truthy (Action.TWILIO_AUTH_TOKEN cfg).

(** A call that [send_sms_notification] accepts: the tool is the send tool
    and neither the phone number nor the body is empty. *)
Definition accepted_send (call : Action.World * string * gmap string string) : bool :=
  let '(_, name, arguments) := call in
  String.eqb name "send_sms_notification"
  && Py.truthy (default "" (arguments !! "phone_number"))
  && Py.truthy (default "" (arguments !! "message_body")).

(** The record an accepted send files in mock mode. *)
Definition record_of (call : Action.World * string * gmap string string)
    : pydict string :=
  let '(w, _, arguments) := call in
  mock_record w (default "" (arguments !! "phone_number"))
                (default "" (arguments !! "message_body")).

(** A world in which Twilio takes every message. *)
Definition willing_world : Action.World :=
  {| Action.twilio_create := fun _ _ _ _ _ => inl "SM0001";
     Action.now := fun _ => noon |}.

(** All three Twilio values set. *)
Definition live_config : Action.Config :=
  {| Action.TWILIO_ACCOUNT_SID := "AC0123";
     Action.TWILIO_AUTH_TOKEN := "secret";
     Action.TWILIO_FROM_NUMBER := "+15551230000" |}.



(** A session for the examples: the reminder, a report, a send without a
    body, a call to a tool that does not exist, and a long message. *)
Definition long_message_arguments : gmap string string :=
  <["phone_number" := "+15550000001"]>
    (<["message_body" :=
         "Your HbA1c screening is overdue. Please schedule an appointment."]> ∅).

Definition sample_session : list (Action.World * string * gmap string string) :=
  [ (quiet_world, "send_sms_notification", reminder_arguments);
    (quiet_world, "get_sent_messages", ∅);
    (quiet_world, "send_sms_notification", {["phone_number" := "+15550000000"]});
    (quiet_world, "no_such_tool", ∅);
    (quiet_world, "send_sms_notification", long_message_arguments) ].

(** The lines of a result table: one per row, the cells in [str] form. *)
Fixpoint table_lines (rows : list (list Data.scalar)) : string :=
  match rows with
  | [] => ""
  | row :: rows' =>
      "| " +:+ Py.join " | " (map Data.str row) +:+ " |
" +:+ table_lines rows'
  end.

(** Databricks credentials as [call_tool] tests them. *)
Definition databricks_live (cfg : Data.Config) : bool :=
  Py.truthy (Data.DATABRICKS_HOST cfg) && Py.truthy (Data.DATABRICKS_TOKEN cfg).

(** A warehouse that answers every query with twelve rows of two columns. *)
Definition twelve_rows : list (list Data.scalar) :=
  map (fun i => [Data.SInt (Z.of_nat i); Data.SNone]) (seq 1 12).

Definition data_answering_world : Data.World :=
  {| Data.databricks_execute := fun _ _ _ _ => inl (["id"; "seen"], twelve_rows);
     Data.FIREMETRICS_DB_USER := "";
     Data.FIREMETRICS_DB_PASSWORD := "";
     Data.firemetrics_fetchone := fun _ _ _ _ =>
       inl (Some (Data.SStr "p-9", Data.SStr "Ana", Data.SNone, Data.SStr "Spanish")) |}.

(** The record of [MOCK_PATIENTS] whose [PatientID] is the given string. *)
Definition patient_with_id (patient_id : string) : option (pydict Data.scalar) :=
  List.find
    (fun p => match Dict.get p "PatientID" with
              | Some (Data.SStr s) => String.eqb s patient_id
              | _ => false
              end)
    Data.MOCK_PATIENTS.

(** A Databricks host without a token. *)
Definition data_host_only_config : Data.Config :=
  {| Data.DATABRICKS_HOST := "dbc.example.net";
     Data.DATABRICKS_TOKEN := "";
     Data.DATABRICKS_WAREHOUSE := "";
     Data.DATABRICKS_HTTP_PATH := "";
     Data.FIREMETRICS_API_KEY := "";
     Data.FIREMETRICS_DB_HOST := "" |}.


(** * Properties *)

(** ** Strings *)

#[local] Arguments String.append : simpl nomatch.

Lemma append_assoc (a b c : string) : (a +:+ b) +:+ c = a +:+ (b +:+ c).
Proof. induction a as [|x a IH]; simpl; [reflexivity | now rewrite IH]. Qed.

Lemma append_nil_r (a : string) : a +:+ "" = a.
Proof. induction a as [|x a IH]; simpl; [reflexivity | now rewrite IH]. Qed.

(** Brings both sides of an equation of concatenations to the same nesting. *)
Ltac flatten_append := repeat first [rewrite append_assoc | progress simpl].

Lemma truthy_false (s : string) : Py.truthy s = false <-> s = "".
Proof. destruct s; simpl; split; congruence. Qed.

Lemma truthy_true (s : string) : Py.truthy s = true <-> s <> "".
Proof. destruct s; simpl; split; congruence. Qed.

Lemma startswith_app (sub b : string) : Py.startswith sub (sub +:+ b) = true.
Proof.
  induction sub as [|x sub IH]; simpl; [reflexivity|].
  now rewrite Ascii.eqb_refl.
Qed.

Lemma contains_unfold (sub s : string) :
  Py.contains sub s =
  Py.startswith sub s ||
  match s with EmptyString => false | String _ s' => Py.contains sub s' end.
Proof. destruct s; reflexivity. Qed.

(** [sub in a + sub + b] *)
Lemma contains_app (a sub b : string) : Py.contains sub (a +:+ sub +:+ b) = true.
Proof.
  induction a as [|x a IH]; simpl.
  - rewrite contains_unfold, startswith_app. reflexivity.
  - rewrite IH. apply orb_true_r.
Qed.

Lemma contains_cons (sub s : string) (c : ascii) :
  Py.contains sub s = true -> Py.contains sub (String c s) = true.
Proof. intros H. simpl. rewrite H. apply orb_true_r. Qed.

Lemma contains_app_r (sub a b : string) :
  Py.contains sub b = true -> Py.contains sub (a +:+ b) = true.
Proof.
  intros H. induction a as [|x a IH]; simpl; [exact H|].
  now apply contains_cons.
Qed.

(** Finds a text in a concatenation whose pieces before it are arbitrary. *)
Ltac find_in_tail :=
  repeat first [ solve [vm_compute; reflexivity]
               | apply contains_app_r
               | apply contains_cons ].

Lemma startswith_inv (sub s : string) :
  Py.startswith sub s = true -> exists b, s = sub +:+ b.
Proof.
  revert s; induction sub as [|x sub IH]; intros s H; simpl in *.
  - now exists s.
  - destruct s as [|y s]; [discriminate|].
    destruct (Ascii.eqb_spec x y) as [->|]; [|discriminate].
    destruct (IH _ H) as [b ->]. now exists b.
Qed.

(** [sub in s] is exactly: [s] is some [a + sub + b]. *)
Lemma contains_iff (sub s : string) :
  Py.contains sub s = true <-> exists a b, s = a +:+ sub +:+ b.
Proof.
  split.
  - induction s as [|x s IH]; simpl; intros H.
    + rewrite orb_false_r in H. destruct (startswith_inv _ _ H) as [b ->].
      now exists "", b.
    + apply orb_true_iff in H as [H|H].
      * destruct (startswith_inv _ _ H) as [b ->]. now exists "", b.
      * destruct (IH H) as (a & b & ->). now exists (String x a), b.
  - intros (a & b & ->). apply contains_app.
Qed.



Lemma lstrip_nil_blank (s : string) :
  Py.lstrip s = "" -> forallb Py.isspace (list_ascii_of_string s) = true.
Proof.
  induction s as [|x s IH]; simpl; [reflexivity|].
  destruct (Py.isspace x); [auto | discriminate].
Qed.




(** [rstrip] leaves alone what precedes text that it does not erase. *)
Lemma rstrip_app (a b : string) :
  Py.rstrip b <> "" -> Py.rstrip (a +:+ b) = a +:+ Py.rstrip b.
Proof.
  intros Hb. induction a as [|x a IH]; simpl; [reflexivity|].
  rewrite IH. destruct (a +:+ Py.rstrip b) eqn:E; [|reflexivity].
  destruct a; simpl in E; [contradiction | discriminate].
Qed.

(** ** The model at work *)

Example lower_example : Py.lower "SELECT Risk_1" = "select risk_1".
Proof. reflexivity. Qed.

Example strip_example : Py.strip (String "010" " a b  ") = "a b".
Proof. reflexivity. Qed.

Example str_example :
  Py.str_nat 0 = "0" /\ Py.str_nat 12 = "12" /\ Py.str_int (-7) = "-7".
Proof. repeat split. Qed.

Example join_example : Py.join " | " ["a"; "b"; "c"] = "a | b | c".
Proof. reflexivity. Qed.

Example contains_example :
  Py.contains "risk" "high-risk" = true /\ Py.contains "gap" "ga p" = false.
Proof. split; reflexivity. Qed.

Example of_pairs_example :
  Dict.of_pairs [("a", 1%Z); ("b", 2%Z); ("a", 3%Z)] = [("a", 3%Z); ("b", 2%Z)].
Proof. reflexivity. Qed.

Example validate_cql_reply_example :
  (o ← Cql.call_tool "validate_cql" {["cql_expression" := "define X: true"]};
   reply_text (Cql.reply o)) =
  Some "## CQL Validation Result: Valid


### Warnings:
- Missing library declaration - recommended for production CQL

CQL expression is syntactically valid".
Proof. vm_compute. reflexivity. Qed.

Example lookup_example :
  (o ← Data.call_tool data_demo_config data_quiet_world "lookup_patient_details"
         {["patient_id" := "patient-002"]};
   reply_text (Data.reply o)) =
  Some "## Patient Details (Firemetrics)

**Patient ID:** patient-002
**Preferred Name:** Jim
**Phone Number:** +15559876543
**Preferred Language:** English
**Best Contact Time:** Morning

*Using demo data - set FIREMETRICS_* env vars for real connection*".
Proof. vm_compute. reflexivity. Qed.

Example lookup_unknown_example :
  (o ← Data.call_tool data_demo_config data_quiet_world "lookup_patient_details"
         {["patient_id" := "does-not-exist"]};
   reply_text (Data.reply o)) =
  Some "## Patient Not Found

No patient found with ID: does-not-exist".
Proof. vm_compute. reflexivity. Qed.

Example query_example :
  (o ← Data.call_tool data_demo_config data_quiet_world "execute_databricks_sql"
         {["sql_query" := "SELECT * FROM care_gaps"]};
   reply_text (Data.reply o)) =
  Some "## Databricks Query Results

**Status:** Success
**Rows Returned:** 5
**Mode:** Demo (mock data)

### Results:

| PatientID | patient_name | RiskScore | GapStatus | last_hba1c_date | days_overdue | glycemic_control |
| --- | --- | --- | --- | --- | --- | --- |
| patient-001 | Maria Garcia | 95 | CRITICAL | None | 365 | UNKNOWN |
| patient-002 | James Wilson | 88 | HIGH | 2024-03-15 | 260 | UNCONTROLLED |
| patient-003 | Sarah Johnson | 72 | MODERATE | 2024-06-20 | 163 | ABOVE_TARGET |
| patient-004 | Robert Chen | 65 | MODERATE | 2024-07-10 | 143 | ABOVE_TARGET |
| patient-005 | Linda Martinez | 55 | MODERATE | 2024-08-01 | 121 | ABOVE_TARGET |
".
Proof. vm_compute. reflexivity. Qed.

Example live_query_error_example :
  (o ← Data.call_tool data_live_config data_quiet_world "execute_databricks_sql"
         {["sql_query" := "SELECT 1"]};
   reply_text (Data.reply o)) =
  Some "## Query Error

**Error:** connection refused".
Proof. vm_compute. reflexivity. Qed.

Example live_send_failure_example :
  (o ← Action.call_tool config_without_from_number quiet_world
         "send_sms_notification" reminder_arguments [];
   reply_text (Action.reply o)) =
  Some "## SMS Failed ❌

**To:** +15550000000
**Error:** Unable to create record

Please check:
1. Phone number format (should be +1XXXXXXXXXX)
2. Twilio credentials are valid
3. Twilio account has sufficient balance
".
Proof. vm_compute. reflexivity. Qed.

(** ** [validate_cql] *)




(** ** The mock query adapter *)




(** ** [convert_cql_to_sql] *)

Lemma lstrip_app (a b : string) :
  Py.lstrip a <> "" -> Py.lstrip (a +:+ b) = Py.lstrip a +:+ b.
Proof.
  induction a as [|x a IH]; simpl; [congruence|].
  destruct (Py.isspace x); [exact IH | reflexivity].
Qed.

(** What [strip] makes of the generic f-string. *)
Lemma strip_generic_template (cql_logic target_dialect : string) :
  Py.strip (Cql.generic_template cql_logic target_dialect) =
  Py.lstrip Cql.generic_head +:+ target_dialect +:+ Cql.generic_middle +:+
  Py.take 200 cql_logic +:+
  (if 200 <? Py.len cql_logic then "..." else "") +:+ Py.rstrip Cql.generic_tail.
Proof.
  unfold Py.strip, Cql.generic_template.
  rewrite lstrip_app by (vm_compute; discriminate).
  rewrite <- !append_assoc.
  rewrite rstrip_app by (vm_compute; discriminate).
  reflexivity.
Qed.




(** ** The messaging server *)

Lemma call_tool_send_unfold cfg w (arguments : gmap string string) st :
  default "" (arguments !! "phone_number") <> "" ->
  default "" (arguments !! "message_body") <> "" ->
  exists t,
    Action.call_tool cfg w "send_sms_notification" arguments st =
      Some {| Action.reply := Action.text_reply t;
              Action.invoked :=
                [ if Py.truthy (Action.TWILIO_ACCOUNT_SID cfg)
                     && Py.truthy (Action.TWILIO_AUTH_TOKEN cfg)
                  then Action.SendSmsReal (default "" (arguments !! "phone_number"))
                         (default "" (arguments !! "message_body"))
                  else Action.SendSmsMock (default "" (arguments !! "phone_number"))
                         (default "" (arguments !! "message_body")) ];
              Action.sent_messages :=
                if Py.truthy (Action.TWILIO_ACCOUNT_SID cfg)
                   && Py.truthy (Action.TWILIO_AUTH_TOKEN cfg)
                then st
                else snd (Action.send_sms_mock w st
                            (default "" (arguments !! "phone_number"))
                            (default "" (arguments !! "message_body"))) |} /\
    (Py.truthy (Action.TWILIO_ACCOUNT_SID cfg)
     && Py.truthy (Action.TWILIO_AUTH_TOKEN cfg) = false ->
     Py.contains "**Mode:** Demo" t = true).
Proof.
  intros Hp Hb. unfold Action.call_tool. rewrite String.eqb_refl.
  apply truthy_true in Hp, Hb. rewrite Hp, Hb. simpl negb. cbv iota.
  destruct (Py.truthy (Action.TWILIO_ACCOUNT_SID cfg)
            && Py.truthy (Action.TWILIO_AUTH_TOKEN cfg)).
  - unfold Action.send_sms_real.
    destruct (Action.twilio_create w _ _ _ _ _); simpl; eexists;
      (split; [reflexivity | discriminate]).
  - simpl. eexists. split; [reflexivity|]. intros _. vm_compute. reflexivity.
Qed.

(** C4. When [phone_number] or [message_body] is empty (or absent),
    [send_sms_notification] answers with its validation error whatever the
    configuration: no send function, live or mock, runs and [SENT_MESSAGES]
    is as before. *)
Theorem send_sms_notification_rejects_empty
    cfg w (arguments : gmap string string) (SENT_MESSAGES : Action.State) :
  default "" (arguments !! "phone_number") = "" \/
  default "" (arguments !! "message_body") = "" ->
  exists r,
    Action.call_tool cfg w "send_sms_notification" arguments SENT_MESSAGES =
      Some {| Action.reply := r;
              Action.invoked := [];
              Action.sent_messages := SENT_MESSAGES |} /\
    is_validation_error r.
Proof.
  intros H. unfold Action.call_tool. rewrite String.eqb_refl.
  destruct (Py.truthy (default "" (arguments !! "phone_number"))) eqn:Hp; simpl.
  - destruct H as [H|H].
    + apply truthy_false in H. congruence.
    + rewrite H. simpl. eexists. split; [reflexivity|]. now right.
  - eexists. split; [reflexivity|]. now left.
Qed.

(** A send with a phone number and an empty body, with credentials set. *)
Lemma send_sms_notification_rejects_empty_witness :
  (default "" (({["phone_number" := "+15550000000"; "message_body" := ""]}
                  : gmap string string) !! "phone_number") = "" \/
   default "" (({["phone_number" := "+15550000000"; "message_body" := ""]}
                  : gmap string string) !! "message_body") = "") /\
  exists r,
    Action.call_tool config_without_from_number quiet_world "send_sms_notification"
      {["phone_number" := "+15550000000"; "message_body" := ""]} [] =
      Some {| Action.reply := r; Action.invoked := []; Action.sent_messages := [] |} /\
    is_validation_error r.
Proof.
  assert (H : default "" (({["phone_number" := "+15550000000"; "message_body" := ""]}
                  : gmap string string) !! "phone_number") = "" \/
   default "" (({["phone_number" := "+15550000000"; "message_body" := ""]}
                  : gmap string string) !! "message_body") = "").
  { right. reflexivity. }
  split; [exact H|].
  exact (send_sms_notification_rejects_empty config_without_from_number quiet_world
           _ [] H).
Defined.

(** ** Names outside the registries *)

Lemma eqb_false_of_not_in (name x : string) (l : list string) :
  ~ In name l -> In x l -> String.eqb name x = false.
Proof.
  intros Hn Hx. apply String.eqb_neq. intros ->. contradiction.
Qed.

(** C7. In each of the three servers, [call_tool] with a name that the
    registry does not list answers [Unknown tool: name]; no adapter function
    runs and [SENT_MESSAGES] is as before. *)
Theorem call_tool_unknown_tool (name : string) :
  (~ In name (tool_names Action.list_tools) ->
   forall cfg w arguments SENT_MESSAGES,
     Action.call_tool cfg w name arguments SENT_MESSAGES =
       Some {| Action.reply := Action.text_reply ("Unknown tool: " +:+ name);
               Action.invoked := [];
               Action.sent_messages := SENT_MESSAGES |}) /\
  (~ In name (tool_names Cql.list_tools) ->
   forall arguments,
     Cql.call_tool name arguments =
       Some {| Cql.reply := Cql.text_reply ("Unknown tool: " +:+ name);
               Cql.invoked := [] |}) /\
  (~ In name (tool_names Data.list_tools) ->
   forall cfg w arguments,
     Data.call_tool cfg w name arguments =
       Some {| Data.reply := Data.text_reply ("Unknown tool: " +:+ name);
               Data.invoked := [] |}).
Proof.
  split; [|split]; intros Hn.
  - intros cfg w arguments st. unfold Action.call_tool.
    rewrite (eqb_false_of_not_in _ "send_sms_notification" _ Hn) by (simpl; auto).
    rewrite (eqb_false_of_not_in _ "get_sent_messages" _ Hn) by (simpl; auto).
    reflexivity.
  - intros arguments. unfold Cql.call_tool.
    rewrite (eqb_false_of_not_in _ "convert_cql_to_sql" _ Hn) by (simpl; auto).
    rewrite (eqb_false_of_not_in _ "validate_cql" _ Hn) by (simpl; auto).
    reflexivity.
  - intros cfg w arguments. unfold Data.call_tool.
    rewrite (eqb_false_of_not_in _ "execute_databricks_sql" _ Hn) by (simpl; auto).
    rewrite (eqb_false_of_not_in _ "lookup_patient_details" _ Hn) by (simpl; auto).
    reflexivity.
Qed.

Lemma no_such_tool_not_listed :
  ~ In "no_such_tool" (tool_names Action.list_tools) /\
  ~ In "no_such_tool" (tool_names Cql.list_tools) /\
  ~ In "no_such_tool" (tool_names Data.list_tools).
Proof.
  repeat split; simpl; intros H; repeat destruct H as [H|H]; try discriminate H;
    exact H.
Defined.

(** [call_tool("no_such_tool", {})] on the three servers. *)
Lemma call_tool_unknown_tool_witness :
  (~ In "no_such_tool" (tool_names Action.list_tools) /\
   ~ In "no_such_tool" (tool_names Cql.list_tools) /\
   ~ In "no_such_tool" (tool_names Data.list_tools)) /\
  Action.call_tool demo_config quiet_world "no_such_tool" ∅ [] =
    Some {| Action.reply := Action.text_reply "Unknown tool: no_such_tool";
            Action.invoked := [];
            Action.sent_messages := [] |} /\
  Cql.call_tool "no_such_tool" ∅ =
    Some {| Cql.reply := Cql.text_reply "Unknown tool: no_such_tool";
            Cql.invoked := [] |}.
Proof.
  split; [exact no_such_tool_not_listed|].
  destruct no_such_tool_not_listed as (Ha & Hc & _).
  split.
  - exact (proj1 (call_tool_unknown_tool "no_such_tool") Ha
             demo_config quiet_world ∅ []).
  - exact (proj1 (proj2 (call_tool_unknown_tool "no_such_tool")) Hc ∅).
Defined.

(** ** The session log *)

Lemma render_messages_total (msgs : list (pydict string)) :
  Forall readable msgs ->
  forall i response, is_Some (Action.render_messages i msgs response).
Proof.
  induction 1 as [|msg msgs Hm _ IH]; intros i response; simpl.
  - eexists; reflexivity.
  - destruct Hm as ([a Ha] & [b Hb] & [c Hc] & [d Hd]).
    unfold Action.render_message, Dict.getitem.
    rewrite Ha, Hb, Hc, Hd. simpl. apply IH.
Qed.


(** [get_sent_messages] on a log of readable records: a reply that depends
    on the log alone, and the log as it was. *)
Lemma call_tool_get_sent_messages (st : Action.State) :
  Forall readable st ->
  exists r, forall cfg w arguments,
    Action.call_tool cfg w "get_sent_messages" arguments st =
      Some {| Action.reply := r; Action.invoked := []; Action.sent_messages := st |}.
Proof.
  intros Hst. unfold Action.call_tool.
  change (String.eqb "get_sent_messages" "send_sms_notification") with false.
  rewrite String.eqb_refl. cbv iota.
  destruct st as [|m st].
  - eexists. intros. reflexivity.
  - destruct (render_messages_total _ Hst 1
                ("## Sent Messages (" +:+ Py.str_nat (length (m :: st)) +:+ " total)

")) as [out Hout].
    exists (Action.text_reply out). intros. rewrite Hout. reflexivity.
Qed.







(** C9. Without Twilio credentials and with nothing sent yet,
    [send_sms_notification] to [+15550000000] with the body [Reminder]
    reports the send as done in demo mode under a generated [SM_MOCK_]
    identifier, runs the mock send only, and leaves exactly one record in
    [SENT_MESSAGES], with that number and body; [get_sent_messages] called
    next lists one message, to that number and with that body. *)
Theorem mock_send_then_report cfg w w' (arguments arguments' : gmap string string) :
  Py.truthy (Action.TWILIO_ACCOUNT_SID cfg) && Py.truthy (Action.TWILIO_AUTH_TOKEN cfg) = false ->
  arguments !! "phone_number" = Some "+15550000000" ->
  arguments !! "message_body" = Some "Reminder" ->
  let message_sid := "SM_MOCK_" +:+ Action.strftime_YmdHMS (Action.now w 0) in
  let timestamp := Action.isoformat (Action.now w 1) in
  exists o record,
    Action.call_tool cfg w "send_sms_notification" arguments Action.SENT_MESSAGES_init = Some o /\
    Action.reply o = Action.text_reply ("## SMS Notification Sent ✅

**Mode:** Demo
**To:** +15550000000
**Message SID:** " +:+ message_sid +:+ "
**Timestamp:** " +:+ timestamp +:+ "

### Message Content:
> Reminder

*Demo mode - set TWILIO_* env vars to send real SMS*") /\
    Action.invoked o = [Action.SendSmsMock "+15550000000" "Reminder"] /\
    Action.sent_messages o = [record] /\
    Dict.get record "message_sid" = Some message_sid /\
    Dict.get record "to" = Some "+15550000000" /\
    Dict.get record "body" = Some "Reminder" /\
    Action.call_tool cfg w' "get_sent_messages" arguments' (Action.sent_messages o) =
      Some {| Action.reply := Action.text_reply ("## Sent Messages (1 total)

### Message 1
- **To:** +15550000000
- **Status:** simulated
- **Time:** " +:+ timestamp +:+ "
- **Content:** Reminder

");
              Action.invoked := [];
              Action.sent_messages := [record] |}.
Proof.
  intros Hmock Hp Hb message_sid timestamp.
  unfold Action.call_tool at 1.
  rewrite String.eqb_refl, Hp, Hb, Hmock. simpl.
  eexists _, _. split; [reflexivity|]. simpl.
  split.
  { unfold message_sid, timestamp. f_equal. flatten_append. reflexivity. }
  repeat (split; [reflexivity|]).
  unfold Action.call_tool.
  change (String.eqb "get_sent_messages" "send_sms_notification") with false.
  rewrite String.eqb_refl. simpl.
  unfold timestamp. flatten_append. reflexivity.
Qed.

(** The reminder sent through a server started without credentials. *)
Lemma mock_send_then_report_witness :
  exists o,
    Action.call_tool demo_config quiet_world "send_sms_notification"
      reminder_arguments Action.SENT_MESSAGES_init = Some o /\
    Action.sent_messages o = one_reminder /\
    Action.call_tool demo_config quiet_world "get_sent_messages" ∅ one_reminder =
      Some {| Action.reply := Action.text_reply "## Sent Messages (1 total)

### Message 1
- **To:** +15550000000
- **Status:** simulated
- **Time:** 2025-01-01T12:00:00.000000
- **Content:** Reminder

";
              Action.invoked := [];
              Action.sent_messages := one_reminder |}.
Proof.
  destruct (mock_send_then_report demo_config quiet_world quiet_world
              reminder_arguments ∅)
    as (o & record & Hsend & _ & _ & Hst & _ & _ & _ & Hget);
    [reflexivity | reflexivity | reflexivity |].
  exists o. split; [exact Hsend|].
  assert (E : Action.sent_messages o = one_reminder).
  { vm_compute in Hsend. injection Hsend as <-. reflexivity. }
  split; [exact E|].
  rewrite E in Hget. rewrite Hget, <- Hst, E. reflexivity.
Defined.

(** ** The data server *)

Lemma render_success_real (cols : list string) (rows : list (list Data.scalar)) :
  is_Some (Data.render_success
    {| Data.status := "success";
       Data.source := None;
       Data.note := None;
       Data.row_count := Some (Z.of_nat (length rows));
       Data.columns := Some cols;
       Data.data := Some (map (fun row => Dict.of_pairs (zip cols row)) rows);
       Data.message := None;
       Data.error := None |}).
Proof.
  unfold Data.render_success. simpl.
  destruct rows; simpl; eexists; reflexivity.
Qed.

(** The query tool returns on every input; the adapter it runs is the live
    one when host and token are both set, the mock one otherwise, and the
    mock report carries the demo tag. *)
Lemma call_tool_execute cfg w (arguments : gmap string string) :
  let sql_query := default "" (arguments !! "sql_query") in
  exists t,
    Data.call_tool cfg w "execute_databricks_sql" arguments =
      Some {| Data.reply := Data.text_reply t;
              Data.invoked :=
                [ if Py.truthy (Data.DATABRICKS_HOST cfg) && Py.truthy (Data.DATABRICKS_TOKEN cfg)
                  then Data.ExecuteDatabricksSqlReal sql_query
                  else Data.ExecuteDatabricksSqlMock sql_query ] |} /\
    (Py.truthy (Data.DATABRICKS_HOST cfg) && Py.truthy (Data.DATABRICKS_TOKEN cfg) = false ->
     Py.contains "**Mode:** Demo" t = true).
Proof.
  intros sql_query. unfold Data.call_tool. rewrite String.eqb_refl. fold sql_query.
  destruct (Py.truthy (Data.DATABRICKS_HOST cfg) && Py.truthy (Data.DATABRICKS_TOKEN cfg)).
  - simpl. unfold Data.execute_databricks_sql_real.
    destruct (Data.databricks_execute w _ _ _ _) as [[cols rows]|e]; simpl.
    + destruct (render_success_real cols rows) as [t ->]. simpl.
      exists t. split; [reflexivity | discriminate].
    + eexists. split; [reflexivity | discriminate].
  - unfold Data.execute_databricks_sql_mock.
    destruct (Py.contains "patient" (Py.lower sql_query)
              || Py.contains "risk" (Py.lower sql_query)
              || Py.contains "gap" (Py.lower sql_query));
      eexists; (split; [vm_compute; reflexivity|]); intros _; vm_compute; reflexivity.
Qed.

Lemma details_get_In d patient_id p :
  Data.details_get d patient_id = Some p -> In p (map snd d).
Proof.
  induction d as [|[k q] d IH]; simpl; [discriminate|].
  destruct (Data.details_get d patient_id) as [r|].
  - intros [= <-]. right. now apply IH.
  - destruct k; try discriminate.
    destruct (String.eqb s patient_id); [|discriminate].
    intros [= <-]. now left.
Qed.

(** The mock lookup returns on every identifier: no patient, or a record
    marked as mock data that is not an error. *)
Lemma lookup_patient_details_mock_total (patient_id : string) :
  Data.lookup_patient_details_mock patient_id = Some None \/
  exists v1 v2 v3 v4 v5,
    Data.lookup_patient_details_mock patient_id =
      Some (Some [ ("patient_id", v1);
                   ("preferred_name", v2);
                   ("phone_number", v3);
                   ("preferred_language", v4);
                   ("best_contact_time", v5);
                   ("source", Data.SStr "mock_data") ]).
Proof.
  unfold Data.lookup_patient_details_mock.
  destruct Data.PATIENT_DETAILS as [details|] eqn:E; [|discriminate E].
  simpl.
  destruct (Data.details_get details patient_id) as [p|] eqn:G; [|now left].
  apply details_get_In in G.
  vm_compute in E. injection E as <-. simpl in G.
  repeat destruct G as [<-|G]; try contradiction; right; simpl; eauto 10.
Qed.

(** The lookup tool returns on every input; the adapter it runs is the live
    one when the database host is set, the mock one otherwise, and the mock
    report either finds no patient or carries the demo notice. *)
Lemma call_tool_lookup cfg w (arguments : gmap string string) :
  let patient_id := default "" (arguments !! "patient_id") in
  exists t,
    Data.call_tool cfg w "lookup_patient_details" arguments =
      Some {| Data.reply := Data.text_reply t;
              Data.invoked :=
                [ if Py.truthy (Data.FIREMETRICS_DB_HOST cfg)
                  then Data.LookupPatientDetailsReal patient_id
                  else Data.LookupPatientDetailsMock patient_id ] |} /\
    (Py.truthy (Data.FIREMETRICS_DB_HOST cfg) = false ->
     t = "## Patient Not Found

No patient found with ID: " +:+ patient_id \/
     Py.contains "*Using demo data - set FIREMETRICS_* env vars for real connection*" t = true).
Proof.
  intros patient_id. unfold Data.call_tool.
  change (String.eqb "lookup_patient_details" "execute_databricks_sql") with false.
  rewrite String.eqb_refl. cbv iota. fold patient_id.
  destruct (Py.truthy (Data.FIREMETRICS_DB_HOST cfg)).
  - simpl. unfold Data.lookup_patient_details_real.
    destruct (Data.firemetrics_fetchone w _ _ _ _) as [[[[[r0 r1] r2] r3]|]|e]; simpl;
      eexists; (split; [reflexivity | discriminate]).
  - destruct (lookup_patient_details_mock_total patient_id)
      as [-> | (v1 & v2 & v3 & v4 & v5 & ->)]; simpl.
    + eexists. split; [reflexivity|]. intros _. now left.
    + eexists. split; [reflexivity|]. intros _. right.
      flatten_append. find_in_tail.
Qed.

(** ** Live or mock *)

(** C3, as the code has it.  Which adapter serves a call is decided by the
    configuration read at start-up and by nothing else, and by these values
    only: account SID and auth token for Twilio, host and token for
    Databricks, the database host for Firemetrics.  When one of them is
    empty the mock adapter serves the call, the SMS and query reports carry
    the [Demo] mode tag, and the lookup report either finds no patient or
    carries the demo-data notice; when all of them are set the live adapter
    runs.  (A send is served when its phone number and body are not empty.) *)
Theorem backend_follows_startup_configuration :
  (forall cfg w (arguments : gmap string string) SENT_MESSAGES,
     let phone_number := default "" (arguments !! "phone_number") in
     let message_body := default "" (arguments !! "message_body") in
     phone_number <> "" -> message_body <> "" ->
     exists o t,
       Action.call_tool cfg w "send_sms_notification" arguments SENT_MESSAGES = Some o /\
       Action.reply o = Action.text_reply t /\
       if Py.truthy (Action.TWILIO_ACCOUNT_SID cfg) && Py.truthy (Action.TWILIO_AUTH_TOKEN cfg)
       then Action.invoked o = [Action.SendSmsReal phone_number message_body]
       else Action.invoked o = [Action.SendSmsMock phone_number message_body] /\
            Py.contains "**Mode:** Demo" t = true) /\
  (forall cfg w (arguments : gmap string string),
     let sql_query := default "" (arguments !! "sql_query") in
     exists o t,
       Data.call_tool cfg w "execute_databricks_sql" arguments = Some o /\
       Data.reply o = Data.text_reply t /\
       if Py.truthy (Data.DATABRICKS_HOST cfg) && Py.truthy (Data.DATABRICKS_TOKEN cfg)
       then Data.invoked o = [Data.ExecuteDatabricksSqlReal sql_query]
       else Data.invoked o = [Data.ExecuteDatabricksSqlMock sql_query] /\
            Py.contains "**Mode:** Demo" t = true) /\
  (forall cfg w (arguments : gmap string string),
     let patient_id := default "" (arguments !! "patient_id") in
     exists o t,
       Data.call_tool cfg w "lookup_patient_details" arguments = Some o /\
       Data.reply o = Data.text_reply t /\
       if Py.truthy (Data.FIREMETRICS_DB_HOST cfg)
       then Data.invoked o = [Data.LookupPatientDetailsReal patient_id]
       else Data.invoked o = [Data.LookupPatientDetailsMock patient_id] /\
            (t = "## Patient Not Found

No patient found with ID: " +:+ patient_id \/
             Py.contains "*Using demo data" t = true)).
Proof.
  split; [|split].
  - intros cfg w arguments st phone_number message_body Hp Hb.
    destruct (call_tool_send_unfold cfg w arguments st Hp Hb) as (t & E & Hdemo).
    eexists _, t. split; [exact E|]. split; [reflexivity|]. simpl.
    fold phone_number message_body.
    destruct (Py.truthy (Action.TWILIO_ACCOUNT_SID cfg)
              && Py.truthy (Action.TWILIO_AUTH_TOKEN cfg)); auto.
  - intros cfg w arguments sql_query.
    destruct (call_tool_execute cfg w arguments) as (t & E & Hdemo).
    eexists _, t. split; [exact E|]. split; [reflexivity|]. simpl.
    fold sql_query.
    destruct (Py.truthy (Data.DATABRICKS_HOST cfg)
              && Py.truthy (Data.DATABRICKS_TOKEN cfg)); auto.
  - intros cfg w arguments patient_id.
    destruct (call_tool_lookup cfg w arguments) as (t & E & Hdemo).
    eexists _, t. split; [exact E|]. split; [reflexivity|]. simpl.
    fold patient_id.
    destruct (Py.truthy (Data.FIREMETRICS_DB_HOST cfg)); [reflexivity|].
    split; [reflexivity|].
    destruct (Hdemo eq_refl) as [->|Hc]; [now left | right].
    apply contains_iff in Hc as (a & b & ->).
    change "*Using demo data - set FIREMETRICS_* env vars for real connection*"
      with ("*Using demo data" +:+ " - set FIREMETRICS_* env vars for real connection*").
    rewrite append_assoc. apply contains_app.
Qed.

(** The reminder through a server without credentials is a mock send
    reported as [Demo]; a query through a data server with host and token
    set runs the live adapter. *)
Lemma backend_follows_startup_configuration_witness :
  (exists o t,
     Action.call_tool demo_config quiet_world "send_sms_notification"
       reminder_arguments [] = Some o /\
     Action.reply o = Action.text_reply t /\
     Action.invoked o = [Action.SendSmsMock "+15550000000" "Reminder"] /\
     Py.contains "**Mode:** Demo" t = true) /\
  (exists o,
     Data.call_tool data_live_config data_quiet_world "execute_databricks_sql" ∅ = Some o /\
     Data.invoked o = [Data.ExecuteDatabricksSqlReal ""]).
Proof.
  split.
  - destruct (proj1 backend_follows_startup_configuration
                demo_config quiet_world reminder_arguments [])
      as (o & t & E & Hr & Hi & Hd); [discriminate | discriminate |].
    exists o, t. auto.
  - destruct (proj1 (proj2 backend_follows_startup_configuration)
                data_live_config data_quiet_world ∅)
      as (o & t & E & _ & Hi).
    exists o. auto.
Defined.

(** C3 as stated fails when only the from-number is missing: with account
    SID and auth token set, the send goes to the live adapter, nothing is
    recorded in [SENT_MESSAGES], and the report has no [Demo] tag. *)
Lemma live_send_without_from_number :
  Action.TWILIO_FROM_NUMBER config_without_from_number = "" /\
  exists o t,
    Action.call_tool config_without_from_number quiet_world "send_sms_notification"
      reminder_arguments [] = Some o /\
    Action.invoked o = [Action.SendSmsReal "+15550000000" "Reminder"] /\
    Action.sent_messages o = [] /\
    Action.reply o = Action.text_reply t /\
    Py.contains "Demo" t = false.
Proof.
  split; [reflexivity|].
  eexists _, _. split; [vm_compute; reflexivity|].
  split; [reflexivity|]. split; [reflexivity|]. split; [reflexivity|].
  vm_compute. reflexivity.
Qed.

(** ** Arguments the schema does not allow *)





(** ** Missing arguments *)





(** * Further properties of the code *)

(** ** The send tool, call by call *)

(** What a send with a phone number and a body returns, in full. *)
Lemma call_tool_send_served cfg w (arguments : gmap string string) st :
  let phone_number := default "" (arguments !! "phone_number") in
  let message_body := default "" (arguments !! "message_body") in
  phone_number <> "" -> message_body <> "" ->
  Action.call_tool cfg w "send_sms_notification" arguments st =
    Some
      (if twilio_live cfg then
         match Action.twilio_create w (Action.TWILIO_ACCOUNT_SID cfg)
                 (Action.TWILIO_AUTH_TOKEN cfg) message_body
                 (Action.TWILIO_FROM_NUMBER cfg) phone_number with
         | inl sid =>
             {| Action.reply :=
                  Action.text_reply
                    (sms_sent_report "Live" phone_number sid
                       (Action.isoformat (Action.now w 0)) message_body);
                Action.invoked := [Action.SendSmsReal phone_number message_body];
                Action.sent_messages := st |}
         | inr e =>
             {| Action.reply := Action.text_reply (sms_failed_report phone_number e);
                Action.invoked := [Action.SendSmsReal phone_number message_body];
                Action.sent_messages := st |}
         end
       else
         {| Action.reply :=
              Action.text_reply
                (sms_sent_report "Demo" phone_number
                   ("SM_MOCK_" +:+ Action.strftime_YmdHMS (Action.now w 0))
                   (Action.isoformat (Action.now w 1)) message_body
                 +:+ "
*Demo mode - set TWILIO_* env vars to send real SMS*");
            Action.invoked := [Action.SendSmsMock phone_number message_body];
            Action.sent_messages := st ++ [mock_record w phone_number message_body] |}).
Proof.
  intros phone_number message_body Hp Hb.
  unfold Action.call_tool. rewrite String.eqb_refl.
  fold phone_number message_body.
  apply truthy_true in Hp, Hb. rewrite Hp, Hb. simpl negb. cbv iota.
  unfold twilio_live.
  destruct (Py.truthy (Action.TWILIO_ACCOUNT_SID cfg)
            && Py.truthy (Action.TWILIO_AUTH_TOKEN cfg)).
  - unfold Action.send_sms_real.
    destruct (Action.twilio_create w _ _ _ _ _); simpl; reflexivity.
  - simpl. reflexivity.
Qed.

(** A call that is not an accepted send leaves the log as it is. *)
Lemma call_tool_not_accepted cfg w name (arguments : gmap string string) st :
  accepted_send (w, name, arguments) = false ->
  Forall readable st ->
  exists o, Action.call_tool cfg w name arguments st = Some o /\
            Action.invoked o = [] /\ Action.sent_messages o = st.
Proof.
  unfold accepted_send. intros Hacc Hst.
  destruct (String.eqb_spec name "send_sms_notification") as [->|Hs].
  - simpl in Hacc. unfold Action.call_tool. rewrite String.eqb_refl.
    destruct (Py.truthy (default "" (arguments !! "phone_number"))); simpl in *.
    + rewrite Hacc. simpl. eexists. split; [reflexivity|]. split; reflexivity.
    + eexists. split; [reflexivity|]. split; reflexivity.
  - destruct (String.eqb_spec name "get_sent_messages") as [->|Hg].
    + destruct (call_tool_get_sent_messages st Hst) as [r Hr].
      eexists. split; [apply Hr|]. split; reflexivity.
    + unfold Action.call_tool. apply String.eqb_neq in Hs, Hg. rewrite Hs, Hg.
      eexists. split; [reflexivity|]. split; reflexivity.
Qed.

Lemma mock_record_readable w phone_number message_body :
  readable (mock_record w phone_number message_body).
Proof. repeat split; eexists; reflexivity. Qed.

Lemma accepted_send_inv w name (arguments : gmap string string) :
  accepted_send (w, name, arguments) = true ->
  name = "send_sms_notification" /\
  default "" (arguments !! "phone_number") <> "" /\
  default "" (arguments !! "message_body") <> "".
Proof.
  unfold accepted_send. intros H.
  apply andb_true_iff in H as [H Hb]. apply andb_true_iff in H as [Hn Hp].
  apply String.eqb_eq in Hn. apply truthy_true in Hp, Hb. auto.
Qed.

(** In mock mode a run of calls adds to the log the records of its accepted
    sends, in the order of the calls. *)
Lemma run_mock_log cfg calls :
  twilio_live cfg = false ->
  forall st, Forall readable st ->
  run cfg calls st = Some (st ++ map record_of (List.filter accepted_send calls)).
Proof.
  intros Hmock. induction calls as [|[[w name] arguments] calls IH]; intros st Hst.
  - simpl. now rewrite app_nil_r.
  - cbn [run List.filter].
    destruct (accepted_send (w, name, arguments)) eqn:Hacc.
    + destruct (accepted_send_inv _ _ _ Hacc) as (-> & Hp & Hb).
      rewrite (call_tool_send_served cfg w arguments st Hp Hb), Hmock.
      cbn [mbind option_bind Action.sent_messages].
      rewrite IH.
      * cbn [map record_of]. now rewrite <- app_assoc.
      * apply Forall_app. split; [exact Hst|].
        constructor; [apply mock_record_readable | constructor].
    + destruct (call_tool_not_accepted cfg w name arguments st Hacc Hst)
        as (o & -> & _ & Ho).
      cbn [mbind option_bind]. rewrite Ho. now apply IH.
Qed.

(** In live mode a run of calls leaves the log empty. *)
Lemma run_live_log cfg calls :
  twilio_live cfg = true -> run cfg calls [] = Some [].
Proof.
  intros Hlive. induction calls as [|[[w name] arguments] calls IH]; [reflexivity|].
  cbn [run].
  destruct (accepted_send (w, name, arguments)) eqn:Hacc.
  - destruct (accepted_send_inv _ _ _ Hacc) as (-> & Hp & Hb).
    rewrite (call_tool_send_served cfg w arguments [] Hp Hb), Hlive.
    destruct (Action.twilio_create w _ _ _ _ _); exact IH.
  - destruct (call_tool_not_accepted cfg w name arguments [] Hacc (List.Forall_nil _))
      as (o & -> & _ & Ho).
    cbn [mbind option_bind]. rewrite Ho. exact IH.
Qed.

(** ** The session log, over whole sessions *)

(** X1. Without Twilio credentials, [SENT_MESSAGES] after any session is
    exactly the list of the records of the accepted sends (the tool is
    [send_sms_notification], phone number and body are not empty), one per
    send and in the order of the calls, each with the number and the body of
    its call; refused sends, reports and unknown tools add nothing. *)
Theorem mock_log_is_the_accepted_sends cfg calls :
  twilio_live cfg = false ->
  run cfg calls Action.SENT_MESSAGES_init =
    Some (map record_of (List.filter accepted_send calls)).
Proof.
  intros Hmock.
  rewrite (run_mock_log cfg calls Hmock Action.SENT_MESSAGES_init).
  - reflexivity.
  - constructor.
Qed.

(** Of the five calls of the sample session two are accepted sends. *)
Lemma mock_log_is_the_accepted_sends_witness :
  twilio_live demo_config = false /\
  exists record,
    run demo_config sample_session Action.SENT_MESSAGES_init =
      Some (one_reminder ++ [record]) /\
    Dict.get record "to" = Some "+15550000001".
Proof.
  split; [reflexivity|].
  eexists. rewrite (mock_log_is_the_accepted_sends demo_config sample_session eq_refl).
  split; vm_compute; reflexivity.
Defined.

(** X2. With account SID and auth token set, nothing is ever recorded: after
    any session, sends that Twilio took included, [SENT_MESSAGES] is empty
    and [get_sent_messages] answers that no messages have been sent. *)
Theorem live_sends_are_not_logged cfg calls w (arguments : gmap string string) :
  twilio_live cfg = true ->
  exists st,
    run cfg calls Action.SENT_MESSAGES_init = Some st /\
    st = [] /\
    Action.call_tool cfg w "get_sent_messages" arguments st =
      Some {| Action.reply := Action.text_reply "## Sent Messages

No messages have been sent in this session.";
              Action.invoked := [];
              Action.sent_messages := [] |}.
Proof.
  intros Hlive. exists []. split; [|split].
  - exact (run_live_log cfg calls Hlive).
  - reflexivity.
  - reflexivity.
Qed.

(** The sample session against a Twilio that takes every message. *)
Lemma live_sends_are_not_logged_witness :
  twilio_live live_config = true /\
  (exists o, Action.call_tool live_config willing_world "send_sms_notification"
               reminder_arguments [] = Some o /\
             Action.invoked o = [Action.SendSmsReal "+15550000000" "Reminder"]) /\
  run live_config
    [(willing_world, "send_sms_notification", reminder_arguments)]
    Action.SENT_MESSAGES_init = Some [].
Proof.
  split; [reflexivity|]. split.
  - eexists. split; vm_compute; reflexivity.
  - destruct (live_sends_are_not_logged live_config
                [(willing_world, "send_sms_notification", reminder_arguments)]
                willing_world ∅ eq_refl) as (st & Hrun & -> & _).
    exact Hrun.
Defined.

(** X3. With account SID and auth token set, an accepted send calls Twilio
    and reports what came of it: the [sid] Twilio returned under
    [Mode: Live], without the demo note, or, when the call raised, the
    [SMS Failed] report with the text of the exception.  No exception leaves
    the handler and [SENT_MESSAGES] is as before. *)
Theorem live_send_reports_twilio_outcome cfg w (arguments : gmap string string) st :
  let phone_number := default "" (arguments !! "phone_number") in
  let message_body := default "" (arguments !! "message_body") in
  twilio_live cfg = true ->
  phone_number <> "" -> message_body <> "" ->
  exists o,
    Action.call_tool cfg w "send_sms_notification" arguments st = Some o /\
    Action.invoked o = [Action.SendSmsReal phone_number message_body] /\
    Action.sent_messages o = st /\
    Action.reply o =
      Action.text_reply
        match Action.twilio_create w (Action.TWILIO_ACCOUNT_SID cfg)
                (Action.TWILIO_AUTH_TOKEN cfg) message_body
                (Action.TWILIO_FROM_NUMBER cfg) phone_number with
        | inl sid =>
            sms_sent_report "Live" phone_number sid
              (Action.isoformat (Action.now w 0)) message_body
        | inr e => sms_failed_report phone_number e
        end.
Proof.
  intros phone_number message_body Hlive Hp Hb.
  rewrite (call_tool_send_served cfg w arguments st Hp Hb), Hlive.
  fold phone_number message_body.
  destruct (Action.twilio_create w _ _ _ _ _); eexists; repeat split.
Qed.

(** The reminder through a Twilio that takes it. *)
Lemma live_send_reports_twilio_outcome_witness :
  exists o,
    Action.call_tool live_config willing_world "send_sms_notification"
      reminder_arguments one_reminder = Some o /\
    Action.sent_messages o = one_reminder /\
    Action.reply o = Action.text_reply "## SMS Notification Sent ✅

**Mode:** Live
**To:** +15550000000
**Message SID:** SM0001
**Timestamp:** 2025-01-01T12:00:00.000000

### Message Content:
> Reminder
".
Proof.
  destruct (live_send_reports_twilio_outcome live_config willing_world
              reminder_arguments one_reminder)
    as (o & E & _ & Hs & Hr); [reflexivity | discriminate | discriminate |].
  exists o. split; [exact E|]. split; [exact Hs|]. exact Hr.
Defined.




(** ** Dictionaries *)

Lemma dict_get_set_eq {V} (d : pydict V) k v : Dict.get (Dict.set d k v) k = Some v.
Proof.
  induction d as [|[k' v'] d IH]; simpl.
  - now rewrite String.eqb_refl.
  - destruct (String.eqb k k') eqn:E; simpl; rewrite E; [reflexivity | exact IH].
Qed.

Lemma dict_get_set_ne {V} (d : pydict V) k k' v :
  k <> k' -> Dict.get (Dict.set d k v) k' = Dict.get d k'.
Proof.
  intros Hne. induction d as [|[k0 v0] d IH]; simpl.
  - apply String.eqb_neq in Hne. rewrite String.eqb_sym. now rewrite Hne.
  - destruct (String.eqb_spec k k0) as [->|Hk]; simpl.
    + assert (E : String.eqb k' k0 = false) by (apply String.eqb_neq; congruence).
      now rewrite E.
    + destruct (String.eqb k' k0); [reflexivity | exact IH].
Qed.

Lemma dict_get_fold_notin {V} (l : list (string * V)) :
  forall d k, ~ In k (map fst l) ->
  Dict.get (fold_left (fun d kv => Dict.set d (fst kv) (snd kv)) l d) k = Dict.get d k.
Proof.
  induction l as [|[k0 v0] l IH]; intros d k Hk; simpl in *; [reflexivity|].
  rewrite IH by tauto. apply dict_get_set_ne. tauto.
Qed.

(** [dict(pairs)[k]] for pairs with distinct keys. *)
Lemma dict_get_of_pairs {V} (l : list (string * V)) k v :
  NoDup (map fst l) -> In (k, v) l -> Dict.get (Dict.of_pairs l) k = Some v.
Proof.
  unfold Dict.of_pairs. generalize (@nil (string * V)) as d.
  induction l as [|[k0 v0] l IH]; intros d Hnd Hin; simpl in *; [contradiction|].
  apply NoDup_cons in Hnd as [Hk0 Hnd].
  destruct Hin as [[= -> ->]|Hin].
  - rewrite dict_get_fold_notin by (rewrite <- list_elem_of_In; exact Hk0).
    apply dict_get_set_eq.
  - now apply IH.
Qed.

Lemma map_fst_zip {A B} (l : list A) (k : list B) :
  length l = length k -> map fst (zip l k) = l.
Proof.
  revert k; induction l as [|x l IH]; intros [|y k] H; simpl in *; try discriminate;
    [reflexivity|].
  f_equal. apply IH. lia.
Qed.

(** A row read back column by column from [dict(zip(columns, row))]. *)
Lemma dict_zip_read_back (cols : list string) (row : list Data.scalar) :
  NoDup cols -> length row = length cols ->
  map (fun col => Data.str (default (Data.SStr "")
                              (Dict.get (Dict.of_pairs (zip cols row)) col))) cols =
  map Data.str row.
Proof.
  intros Hnd Hlen.
  assert (Hd : NoDup (map fst (zip cols row))) by (rewrite map_fst_zip; auto).
  assert (Hin : forall c v, In (c, v) (zip cols row) ->
                  Dict.get (Dict.of_pairs (zip cols row)) c = Some v).
  { intros c v. now apply dict_get_of_pairs. }
  clear Hd Hnd. revert Hin. generalize (Dict.of_pairs (zip cols row)) as d.
  revert row Hlen. induction cols as [|c cols IH]; intros [|v row] Hlen d Hin;
    simpl in *; try discriminate; [reflexivity|].
  rewrite (Hin c v) by now left. simpl. f_equal.
  apply IH; [lia|]. intros c' v' H. apply Hin. now right.
Qed.

Lemma render_rows_app cols rows :
  forall response,
    Data.render_rows cols rows response =
      response +:+ Data.render_rows cols rows "".
Proof.
  induction rows as [|row rows IH]; intros response; simpl.
  - now rewrite append_nil_r.
  - rewrite IH. rewrite (IH (Data.render_row cols row)). now rewrite append_assoc.
Qed.

(** The rows of a live result, rendered. *)
Lemma render_rows_live (cols : list string) (rows : list (list Data.scalar)) :
  NoDup cols -> Forall (fun row => length row = length cols) rows ->
  Data.render_rows cols (map (fun row => Dict.of_pairs (zip cols row)) rows) "" =
    table_lines rows.
Proof.
  intros Hnd. induction 1 as [|row rows Hrow _ IH]; [reflexivity|].
  cbn [map Data.render_rows table_lines]. rewrite render_rows_app, IH.
  unfold Data.render_row. rewrite (dict_zip_read_back cols row Hnd Hrow).
  simpl. now rewrite !append_assoc.
Qed.

(** ** The data server against a live warehouse *)

Lemma take_map {A B} (f : A -> B) (n : nat) (l : list A) :
  take n (map f l) = map f (take n l).
Proof.
  revert l; induction n as [|n IH]; intros [|x l]; simpl; try reflexivity.
  now rewrite IH.
Qed.

(** X5. With Databricks host and token set, a query that the warehouse
    answers is reported from the warehouse's rows: the count is the number
    of rows, with no demo tag; when there are rows, the table has the column
    names, a separator per column and, for column names that are distinct
    and rows of the width of the columns, one line per row with the cells in
    order under [str] ([None] for a NULL), for the first ten rows only; the
    number of the remaining rows follows when there are more than ten. *)
Theorem live_query_report cfg w (arguments : gmap string string) cols rows :
  let sql_query := default "" (arguments !! "sql_query") in
  databricks_live cfg = true ->
  Data.databricks_execute w (Data.DATABRICKS_HOST cfg) (Data.DATABRICKS_HTTP_PATH cfg)
    (Data.DATABRICKS_TOKEN cfg) sql_query = inl (cols, rows) ->
  NoDup cols ->
  Forall (fun row => length row = length cols) rows ->
  Data.call_tool cfg w "execute_databricks_sql" arguments =
    Some {| Data.reply :=
              Data.text_reply ("## Databricks Query Results

**Status:** Success
**Rows Returned:** " +:+ Py.str_int (Z.of_nat (length rows)) +:+ "
" +:+ match rows with
      | [] => ""
      | _ :: _ => "
### Results:

| " +:+ Py.join " | " cols +:+ " |
| " +:+ Py.join " | " (replicate (length cols) "---") +:+ " |
" +:+ table_lines (take 10 rows) +:+
          (if (10 <? Z.of_nat (length rows))%Z
           then "
*...and " +:+ Py.str_int (Z.of_nat (length rows) - 10) +:+ " more rows*
"
           else "")
      end);
            Data.invoked := [Data.ExecuteDatabricksSqlReal sql_query] |}.
Proof.
  intros sql_query Hlive Hexec Hnd Hrows.
  unfold Data.call_tool. rewrite String.eqb_refl. fold sql_query.
  unfold databricks_live in Hlive. rewrite Hlive.
  unfold Data.execute_databricks_sql_real. rewrite Hexec.
  cbn [mbind option_bind Data.status]. rewrite String.eqb_refl.
  unfold Data.render_success.
  cbn [Data.row_count Data.source Data.data Data.columns mbind option_bind].
  destruct rows as [|row rows'].
  - reflexivity.
  - set (rows := row :: rows') in *.
    change (map (fun r => Dict.of_pairs (zip cols r)) rows)
      with (map (fun r => Dict.of_pairs (zip cols r)) (row :: rows')).
    cbn [map]. cbn [mbind option_bind].
    change (Dict.of_pairs (zip cols row) ::
            map (fun r => Dict.of_pairs (zip cols r)) rows')
      with (map (fun r => Dict.of_pairs (zip cols r)) rows).
    rewrite take_map, render_rows_app.
    rewrite (render_rows_live cols (take 10 rows) Hnd) by now apply Forall_take.
    destruct (10 <? Z.of_nat (length rows))%Z; do 3 f_equal;
      rewrite ?append_nil_r; flatten_append; reflexivity.
Qed.

(** Twelve rows of two columns: ten are shown and two announced. *)
Lemma live_query_report_witness :
  databricks_live data_live_config = true /\
  NoDup ["id"; "seen"] /\
  Forall (fun row : list Data.scalar => length row = 2) twelve_rows /\
  Data.call_tool data_live_config data_answering_world "execute_databricks_sql"
    {["sql_query" := "SELECT id, seen FROM visits"]} =
    Some {| Data.reply := Data.text_reply "## Databricks Query Results

**Status:** Success
**Rows Returned:** 12

### Results:

| id | seen |
| --- | --- |
| 1 | None |
| 2 | None |
| 3 | None |
| 4 | None |
| 5 | None |
| 6 | None |
| 7 | None |
| 8 | None |
| 9 | None |
| 10 | None |

*...and 2 more rows*
";
            Data.invoked :=
              [Data.ExecuteDatabricksSqlReal "SELECT id, seen FROM visits"] |}.
Proof.
  assert (Hnd : NoDup ["id"; "seen"]).
  { repeat constructor; rewrite ?list_elem_of_In; simpl; intuition discriminate. }
  assert (Hrows : Forall (fun row : list Data.scalar => length row = 2) twelve_rows).
  { repeat constructor. }
  split; [reflexivity|]. split; [exact Hnd|]. split; [exact Hrows|].
  rewrite (live_query_report data_live_config data_answering_world
             {["sql_query" := "SELECT id, seen FROM visits"]}
             ["id"; "seen"] twelve_rows eq_refl eq_refl Hnd Hrows).
  reflexivity.
Defined.

(** X6. Live failures are reported, not papered over with mock data: with
    the credentials set, a query on which the Databricks driver raises is
    answered by [Query Error] with the text of the exception, and a lookup
    on which the PostgreSQL driver raises by [Lookup Error], even where the
    mock adapter would have had data; no exception leaves the handler. *)
Theorem live_failure_is_reported cfg w (arguments : gmap string string) e :
  (databricks_live cfg = true ->
   Data.databricks_execute w (Data.DATABRICKS_HOST cfg) (Data.DATABRICKS_HTTP_PATH cfg)
     (Data.DATABRICKS_TOKEN cfg) (default "" (arguments !! "sql_query")) = inr e ->
   Data.call_tool cfg w "execute_databricks_sql" arguments =
     Some {| Data.reply := Data.text_reply ("## Query Error

**Error:** " +:+ e);
             Data.invoked :=
               [Data.ExecuteDatabricksSqlReal (default "" (arguments !! "sql_query"))] |}) /\
  (Py.truthy (Data.FIREMETRICS_DB_HOST cfg) = true ->
   Data.firemetrics_fetchone w (Data.FIREMETRICS_DB_HOST cfg) (Data.FIREMETRICS_DB_USER w)
     (Data.FIREMETRICS_DB_PASSWORD w) (default "" (arguments !! "patient_id")) = inr e ->
   Data.call_tool cfg w "lookup_patient_details" arguments =
     Some {| Data.reply := Data.text_reply ("## Lookup Error

**Error:** " +:+ e);
             Data.invoked :=
               [Data.LookupPatientDetailsReal (default "" (arguments !! "patient_id"))] |}).
Proof.
  split.
  - intros Hlive Hexec. unfold Data.call_tool. rewrite String.eqb_refl.
    unfold databricks_live in Hlive. rewrite Hlive.
    unfold Data.execute_databricks_sql_real. rewrite Hexec. reflexivity.
  - intros Hlive Hfetch. unfold Data.call_tool.
    change (String.eqb "lookup_patient_details" "execute_databricks_sql") with false.
    rewrite String.eqb_refl. cbv iota. rewrite Hlive.
    unfold Data.lookup_patient_details_real. rewrite Hfetch. reflexivity.
Qed.

(** A risk query and a lookup of the first mock patient while no connection
    can be made. *)
Lemma live_failure_is_reported_witness :
  Data.call_tool data_live_config data_quiet_world "execute_databricks_sql"
    {["sql_query" := "SELECT * FROM patient_risk"]} =
    Some {| Data.reply := Data.text_reply "## Query Error

**Error:** connection refused";
            Data.invoked :=
              [Data.ExecuteDatabricksSqlReal "SELECT * FROM patient_risk"] |} /\
  Data.call_tool data_live_config data_quiet_world "lookup_patient_details"
    {["patient_id" := "patient-001"]} =
    Some {| Data.reply := Data.text_reply "## Lookup Error

**Error:** connection refused";
            Data.invoked := [Data.LookupPatientDetailsReal "patient-001"] |}.
Proof.
  split.
  - exact (proj1 (live_failure_is_reported data_live_config data_quiet_world
                    {["sql_query" := "SELECT * FROM patient_risk"]} "connection refused")
             eq_refl eq_refl).
  - exact (proj2 (live_failure_is_reported data_live_config data_quiet_world
                    {["patient_id" := "patient-001"]} "connection refused")
             eq_refl eq_refl).
Defined.

(** X7. With the Firemetrics database host set, the lookup reports what the
    database returned: no row gives [Patient Not Found] with the identifier
    asked for; a row gives its four columns under [str], so that a NULL is
    shown as [None] and never as the [N/A] of the code, the contact time is
    always [Any time], and there is no demo notice. *)
Theorem live_lookup_report cfg w (arguments : gmap string string) :
  let patient_id := default "" (arguments !! "patient_id") in
  Py.truthy (Data.FIREMETRICS_DB_HOST cfg) = true ->
  forall found,
  Data.firemetrics_fetchone w (Data.FIREMETRICS_DB_HOST cfg) (Data.FIREMETRICS_DB_USER w)
    (Data.FIREMETRICS_DB_PASSWORD w) patient_id = inl found ->
  Data.call_tool cfg w "lookup_patient_details" arguments =
    Some {| Data.reply :=
              Data.text_reply
                match found with
                | None => "## Patient Not Found

No patient found with ID: " +:+ patient_id
                | Some (id, preferred_name, phone_number, preferred_language) =>
                    "## Patient Details (Firemetrics)

**Patient ID:** " +:+ Data.str id +:+ "
**Preferred Name:** " +:+ Data.str preferred_name +:+ "
**Phone Number:** " +:+ Data.str phone_number +:+ "
**Preferred Language:** " +:+ Data.str preferred_language +:+ "
**Best Contact Time:** Any time
"
                end;
            Data.invoked := [Data.LookupPatientDetailsReal patient_id] |}.
Proof.
  intros patient_id Hlive found Hfetch. unfold Data.call_tool.
  change (String.eqb "lookup_patient_details" "execute_databricks_sql") with false.
  rewrite String.eqb_refl. cbv iota. fold patient_id. rewrite Hlive.
  unfold Data.lookup_patient_details_real. rewrite Hfetch.
  destruct found as [[[[r0 r1] r2] r3]|]; reflexivity.
Qed.

(** A patient whose phone number is NULL in the database. *)
Lemma live_lookup_report_witness :
  Data.call_tool data_live_config data_answering_world "lookup_patient_details"
    {["patient_id" := "p-9"]} =
    Some {| Data.reply := Data.text_reply "## Patient Details (Firemetrics)

**Patient ID:** p-9
**Preferred Name:** Ana
**Phone Number:** None
**Preferred Language:** Spanish
**Best Contact Time:** Any time
";
            Data.invoked := [Data.LookupPatientDetailsReal "p-9"] |}.
Proof.
  exact (live_lookup_report data_live_config data_answering_world
           {["patient_id" := "p-9"]} eq_refl _ eq_refl).
Defined.

(** ** The mock patient table *)

Lemma details_get_none d patient_id :
  Forall (fun kp : Data.scalar * pydict Data.scalar =>
            match fst kp with
            | Data.SStr s => String.eqb s patient_id = false
            | _ => True
            end) d ->
  Data.details_get d patient_id = None.
Proof.
  induction 1 as [|[k p] d Hk _ IH]; [reflexivity|].
  cbn [Data.details_get]. rewrite IH.
  destruct k; try reflexivity. simpl in Hk. now rewrite Hk.
Qed.

Lemma find_none_of_Forall {A} (f : A -> bool) (l : list A) :
  Forall (fun x => f x = false) l -> List.find f l = None.
Proof.
  induction 1 as [|x l Hx _ IH]; [reflexivity|].
  cbn [List.find]. now rewrite Hx.
Qed.

(** X8. The mock lookup finds the patients of [MOCK_PATIENTS] and no others:
    for the [PatientID] of a record it returns that identifier with the
    preferred name, phone number, language and contact time of the record,
    marked as mock data; for any other string, the empty one included, it
    returns [None] and raises nothing. *)
Theorem lookup_patient_details_mock_reads_the_table (patient_id : string) :
  Data.lookup_patient_details_mock patient_id =
    Some
      match patient_with_id patient_id with
      | Some p =>
          Some [ ("patient_id", Data.SStr patient_id);
                 ("preferred_name", default Data.SNone (Dict.get p "preferred_name"));
                 ("phone_number", default Data.SNone (Dict.get p "phone_number"));
                 ("preferred_language",
                  default Data.SNone (Dict.get p "preferred_language"));
                 ("best_contact_time",
                  default Data.SNone (Dict.get p "best_contact_time"));
                 ("source", Data.SStr "mock_data") ]
      | None => None
      end.
Proof.
  destruct (String.eqb "patient-001" patient_id) eqn:E1;
    [apply String.eqb_eq in E1; subst; vm_compute; reflexivity|].
  destruct (String.eqb "patient-002" patient_id) eqn:E2;
    [apply String.eqb_eq in E2; subst; vm_compute; reflexivity|].
  destruct (String.eqb "patient-003" patient_id) eqn:E3;
    [apply String.eqb_eq in E3; subst; vm_compute; reflexivity|].
  destruct (String.eqb "patient-004" patient_id) eqn:E4;
    [apply String.eqb_eq in E4; subst; vm_compute; reflexivity|].
  destruct (String.eqb "patient-005" patient_id) eqn:E5;
    [apply String.eqb_eq in E5; subst; vm_compute; reflexivity|].
  assert (F : patient_with_id patient_id = None).
  { apply find_none_of_Forall.
    repeat (constructor; [first [exact E1 | exact E2 | exact E3 | exact E4 | exact E5]|]).
    constructor. }
  rewrite F. unfold Data.lookup_patient_details_mock.
  destruct Data.PATIENT_DETAILS as [details|] eqn:E; [|discriminate E].
  cbn [mbind option_bind].
  rewrite details_get_none; [reflexivity|].
  vm_compute in E. injection E as <-.
  repeat (constructor; [first [exact E1 | exact E2 | exact E3 | exact E4 | exact E5]|]).
  constructor.
Qed.

(** The second patient is found under its identifier; the same identifier
    in capitals is not. *)
Lemma lookup_patient_details_mock_reads_the_table_witness :
  Data.lookup_patient_details_mock "patient-002" =
    Some (Some [ ("patient_id", Data.SStr "patient-002");
                 ("preferred_name", Data.SStr "Jim");
                 ("phone_number", Data.SStr "+15559876543");
                 ("preferred_language", Data.SStr "English");
                 ("best_contact_time", Data.SStr "Morning");
                 ("source", Data.SStr "mock_data") ]) /\
  Data.lookup_patient_details_mock "PATIENT-002" = Some None.
Proof.
  split.
  - rewrite (lookup_patient_details_mock_reads_the_table "patient-002"). reflexivity.
  - rewrite (lookup_patient_details_mock_reads_the_table "PATIENT-002"). reflexivity.
Defined.

(** ** What the servers announce at start-up *)

(** X9. The banner of [main] and the adapter that serves the calls agree for
    Twilio and for Firemetrics: the banner announces demo mode, or mock
    data, exactly when the mock adapter serves.  For Databricks the banner
    looks at the host alone while [call_tool] wants host and token: the
    mock-data line still means mock service, but with a host and no token
    the banner says [Connected to] the host and the queries are served from
    mock data. *)
Theorem startup_banner_and_backend :
  (forall cfg w (arguments : gmap string string) st,
     let phone_number := default "" (arguments !! "phone_number") in
     let message_body := default "" (arguments !! "message_body") in
     phone_number <> "" -> message_body <> "" ->
     exists o,
       Action.call_tool cfg w "send_sms_notification" arguments st = Some o /\
       (In "   Twilio: Demo mode (set TWILIO_* env vars for real SMS)" (Action.main cfg) <->
        Action.invoked o = [Action.SendSmsMock phone_number message_body])) /\
  (forall cfg w (arguments : gmap string string),
     let patient_id := default "" (arguments !! "patient_id") in
     exists o,
       Data.call_tool cfg w "lookup_patient_details" arguments = Some o /\
       (In "   Firemetrics: Using mock data (set FIREMETRICS_* env vars for real connection)"
           (Data.main cfg) <->
        Data.invoked o = [Data.LookupPatientDetailsMock patient_id])) /\
  (forall cfg w (arguments : gmap string string),
     let sql_query := default "" (arguments !! "sql_query") in
     exists o,
       Data.call_tool cfg w "execute_databricks_sql" arguments = Some o /\
       (In "   Databricks: Using mock data (set DATABRICKS_* env vars for real connection)"
           (Data.main cfg) ->
        Data.invoked o = [Data.ExecuteDatabricksSqlMock sql_query]) /\
       (Data.DATABRICKS_HOST cfg <> "" -> Data.DATABRICKS_TOKEN cfg = "" ->
        In ("   Databricks: Connected to " +:+ Data.DATABRICKS_HOST cfg) (Data.main cfg) /\
        Data.invoked o = [Data.ExecuteDatabricksSqlMock sql_query])).
Proof.
  split; [|split].
  - intros cfg w arguments st phone_number message_body Hp Hb.
    destruct (call_tool_send_unfold cfg w arguments st Hp Hb) as (t & E & _).
    eexists. split; [exact E|]. cbn [Action.invoked]. fold phone_number message_body.
    unfold Action.main.
    destruct (Py.truthy (Action.TWILIO_ACCOUNT_SID cfg)
              && Py.truthy (Action.TWILIO_AUTH_TOKEN cfg)); simpl; split.
    + intros [H|[H|[]]]; discriminate H.
    + discriminate.
    + reflexivity.
    + intros _. right. now left.
  - intros cfg w arguments patient_id.
    destruct (call_tool_lookup cfg w arguments) as (t & E & _).
    eexists. split; [exact E|]. cbn [Data.invoked]. fold patient_id.
    unfold Data.main.
    destruct (Py.truthy (Data.DATABRICKS_HOST cfg)),
             (Py.truthy (Data.FIREMETRICS_DB_HOST cfg)); simpl; split;
      try discriminate; try reflexivity;
      try (intros [H|[H|[H|[]]]]; discriminate H);
      intros _; right; right; now left.
  - intros cfg w arguments sql_query.
    destruct (call_tool_execute cfg w arguments) as (t & E & _).
    eexists. split; [exact E|]. cbn [Data.invoked]. fold sql_query.
    unfold Data.main. split.
    + destruct (Py.truthy (Data.DATABRICKS_HOST cfg)) eqn:Hh; [|reflexivity].
      destruct (Py.truthy (Data.FIREMETRICS_DB_HOST cfg)); simpl;
        intros [H|[H|[H|[]]]]; discriminate H.
    + intros Hh Ht. apply truthy_true in Hh. rewrite Hh, Ht. simpl.
      split; [right; now left | reflexivity].
Qed.

(** A data server started with a Databricks host and no token. *)
Lemma startup_banner_and_backend_witness :
  In "   Databricks: Connected to dbc.example.net" (Data.main data_host_only_config) /\
  exists o,
    Data.call_tool data_host_only_config data_quiet_world "execute_databricks_sql"
      {["sql_query" := "SELECT 1"]} = Some o /\
    Data.invoked o = [Data.ExecuteDatabricksSqlMock "SELECT 1"].
Proof.
  destruct (proj2 (proj2 startup_banner_and_backend)
              data_host_only_config data_quiet_world {["sql_query" := "SELECT 1"]})
    as (o & E & _ & H).
  destruct H as [Hb Hi]; [discriminate | reflexivity |].
  split; [exact Hb|]. exists o. split; [exact E | exact Hi].
Defined.

(** ** The transform server *)



(** X11. Whatever the source text and whatever dialect is asked for,
    [convert_cql_to_sql] returns a text that begins with the comment
    [-- Spark SQL], is not empty and has no whitespace at either end; and
    when the source text names a diabetes or a breast cancer screening
    keyword, the SQL returned is the same for every target dialect. *)
Theorem convert_cql_to_sql_is_spark_sql (cql_logic target_dialect : string) :
  exists sql,
    Cql.convert_cql_to_sql cql_logic target_dialect = Some sql /\
    Py.startswith "-- Spark SQL" sql = true /\
    Py.strip sql = sql /\
    (let l := Py.lower cql_logic in
     Py.contains "diabetes" l || Py.contains "hba1c" l || Py.contains "a1c" l
     || (Py.contains "breast" l || Py.contains "mammog" l || Py.contains "cms125" l) = true ->
     forall other_dialect, Cql.convert_cql_to_sql cql_logic other_dialect = Some sql).
Proof.
  unfold Cql.convert_cql_to_sql.
  destruct (Py.contains "diabetes" (Py.lower cql_logic)
            || Py.contains "hba1c" (Py.lower cql_logic)
            || Py.contains "a1c" (Py.lower cql_logic)) eqn:R1.
  { eexists. split; [reflexivity|]. split; [vm_compute; reflexivity|].
    split; [vm_compute; reflexivity|]. intros _ other. reflexivity. }
  destruct (Py.contains "breast" (Py.lower cql_logic)
            || Py.contains "mammog" (Py.lower cql_logic)
            || Py.contains "cms125" (Py.lower cql_logic)) eqn:R2.
  { eexists. split; [reflexivity|]. split; [vm_compute; reflexivity|].
    split; [vm_compute; reflexivity|]. intros _ other. reflexivity. }
  cbn [mbind option_bind]. rewrite strip_generic_template.
  eexists. split; [reflexivity|]. split; [reflexivity|]. split.
  - assert (HA : Py.lstrip (Py.lstrip Cql.generic_head) = Py.lstrip Cql.generic_head)
      by (vm_compute; reflexivity).
    assert (HZ : Py.rstrip (Py.rstrip Cql.generic_tail) = Py.rstrip Cql.generic_tail)
      by (vm_compute; reflexivity).
    unfold Py.strip.
    rewrite lstrip_app by (rewrite HA; vm_compute; discriminate).
    rewrite HA, <- !append_assoc.
    rewrite rstrip_app by (rewrite HZ; vm_compute; discriminate).
    now rewrite HZ.
  - simpl. discriminate.
Qed.

(** A screening measure asked for in two dialects. *)
Lemma convert_cql_to_sql_is_spark_sql_witness :
  exists sql,
    Cql.convert_cql_to_sql "CMS125 numerator" "postgresql" = Some sql /\
    Py.startswith "-- Spark SQL" sql = true /\
    Cql.convert_cql_to_sql "CMS125 numerator" "bigquery" = Some sql.
Proof.
  destruct (convert_cql_to_sql_is_spark_sql "CMS125 numerator" "postgresql")
    as (sql & E & Hs & _ & Hd).
  exists sql. split; [exact E|]. split; [exact Hs|].
  apply Hd. reflexivity.
Defined.





(** ** Registry and dispatch *)









(** ** The mock query result *)

(** X14. For a query text with one of the keywords [patient], [risk], [gap],
    in any case, the mock query adapter returns the patients of
    [MOCK_PATIENTS] cut down to the seven declared columns: one row per
    patient and in the same order, [row_count] their number, each row with
    exactly the declared columns, in the declared order, and under each the
    value of the patient record.  The contact fields of the records
    (phone number, preferred name, language, contact time) are not part of
    any row. *)
Theorem execute_databricks_sql_mock_projects_the_patients (sql_query : string) :
  Py.contains "patient" (Py.lower sql_query) || Py.contains "risk" (Py.lower sql_query)
  || Py.contains "gap" (Py.lower sql_query) = true ->
  exists r cols rows,
    Data.execute_databricks_sql_mock sql_query = Some r /\
    Data.columns r = Some cols /\
    Data.data r = Some rows /\
    Data.row_count r = Some (Z.of_nat (length Data.MOCK_PATIENTS)) /\
    Forall2 (fun row p =>
               map fst row = cols /\
               (forall c, In c cols -> Dict.get row c = Dict.get p c) /\
               forallb (fun c => negb (Dict.mem c row))
                 ["phone_number"; "preferred_name"; "preferred_language";
                  "best_contact_time"] = true)
            rows Data.MOCK_PATIENTS.
Proof.
  intros Hk. unfold Data.execute_databricks_sql_mock. rewrite Hk.
  destruct (mapM Data.mock_row Data.MOCK_PATIENTS) as [rows|] eqn:E;
    [|vm_compute in E; discriminate E].
  vm_compute in E. injection E as <-.
  eexists _, _, _. cbn [mbind option_bind Data.columns Data.data Data.row_count].
  repeat (split; [reflexivity|]).
  repeat (constructor;
          [split; [reflexivity|]; split; [|reflexivity];
           intros c Hc; simpl in Hc;
           repeat (destruct Hc as [<-|Hc]; [reflexivity|]); contradiction|]).
  constructor.
Qed.

(** A care-gap query: five rows, the first one Maria Garcia's, without her
    phone number. *)
Lemma execute_databricks_sql_mock_projects_the_patients_witness :
  exists r row rows,
    Data.execute_databricks_sql_mock "SELECT * FROM Care_Gaps" = Some r /\
    Data.data r = Some (row :: rows) /\
    length rows = 4 /\
    Dict.get row "patient_name" = Some (Data.SStr "Maria Garcia") /\
    Dict.get row "phone_number" = None.
Proof.
  destruct (execute_databricks_sql_mock_projects_the_patients "SELECT * FROM Care_Gaps")
    as (r & cols & rows & E & _ & Hd & _ & _); [reflexivity|].
  vm_compute in E. injection E as <-.
  eexists _, _, _. split; [reflexivity|]. repeat split.
Defined.

